(** * generateGmock.py: a shallow embedding and its verified properties

    The development follows [generateGmock.py] class by class:
    - [Py]: the handful of Python built-ins the program relies on
      ([str.split], [str.lower], [str.title], [str.strip], [in], slices),
      on 8-bit strings; case mapping and white space are those of the
      ASCII range, any other byte is left as it is;
    - [StringTransform]: the identifier transformer;
    - [MockMethod]: the method descriptor and its rendering;
    - [MockGenerator]: signature reconstruction, the walk over the
      declaration tree and the assembly of the replacement mapping.

    Python exceptions are values of [exn]; a function that may raise
    returns a [result]. *)

From Stdlib Require Import String Ascii List Arith Bool Lia.
From Stdlib Require Import DecimalString.
Import ListNotations.
Open Scope list_scope.
Open Scope string_scope.

(** ** Exceptions *)

Inductive exn : Type :=
| ValueError (msg : string)
| RuntimeError (msg : string)
| IndexError.

Inductive result (A : Type) : Type :=
| Ok (a : A)
| Raise (e : exn).

Arguments Ok {A} a.
Arguments Raise {A} e.

Definition bind {A B : Type} (c : result A) (k : A -> result B) : result B :=
  match c with
  | Ok a => k a
  | Raise e => Raise e
  end.

Notation "x <- c ;; k" := (bind c (fun x => k))
  (at level 61, c at next level, right associativity).
Notation "' p <- c ;; k" := (bind c (fun x => let p := x in k))
  (at level 61, p pattern, c at next level, right associativity).

Definition is_ok {A : Type} (c : result A) : bool :=
  match c with Ok _ => true | Raise _ => false end.

Definition is_value_error {A : Type} (c : result A) : bool :=
  match c with Raise (ValueError _) => true | _ => false end.

(** ** Python built-ins *)

Module Py.

(** [x in xs] for a list of strings. *)
Fixpoint mem (x : string) (xs : list string) : bool :=
  match xs with
  | [] => false
  | y :: ys => (x =? y) || mem x ys
  end.

(** [sub in s]: [sub] occurs in [s] as a substring. *)
Fixpoint contains (sub s : string) : bool :=
  prefix sub s ||
  match s with
  | EmptyString => false
  | String _ s' => contains sub s'
  end.

(** [s.startswith(p)]. *)
Definition startswith (s p : string) : bool := prefix p s.

Definition is_upper (c : ascii) : bool :=
  let n := nat_of_ascii c in ((65 <=? n) && (n <=? 90))%nat.

Definition is_lower (c : ascii) : bool :=
  let n := nat_of_ascii c in ((97 <=? n) && (n <=? 122))%nat.

Definition lower_char (c : ascii) : ascii :=
  if is_upper c then ascii_of_nat (nat_of_ascii c + 32) else c.

Definition upper_char (c : ascii) : ascii :=
  if is_lower c then ascii_of_nat (nat_of_ascii c - 32) else c.

Fixpoint map_chars (f : ascii -> ascii) (s : string) : string :=
  match s with
  | EmptyString => EmptyString
  | String c s' => String (f c) (map_chars f s')
  end.

(** [s.lower()] and [s.upper()] on the ASCII range: the letters [A]-[Z]
    and [a]-[z] are mapped, every other character is left as it is.  On a
    string with a character outside that range Python may map that
    character too ([str.lower] turns [Ü] into [ü]); the properties that
    depend on the case mapping are stated for ASCII strings
    ([Notions.is_ascii]). *)
Definition lower (s : string) : string := map_chars lower_char s.
Definition upper (s : string) : string := map_chars upper_char s.

(** [s.title()] on the ASCII range: a cased character (a letter [A]-[Z]
    or [a]-[z]) is upper-cased when it follows an uncased one (or starts
    the string) and lower-cased otherwise.  Characters outside the ASCII
    range count as uncased here, which Python does not always do. *)
Fixpoint title_from (previous_is_cased : bool) (s : string) : string :=
  match s with
  | EmptyString => EmptyString
  | String c s' =>
      if is_upper c || is_lower c then
        String (if previous_is_cased then lower_char c else upper_char c)
               (title_from true s')
      else String c (title_from false s')
  end.

Definition title (s : string) : string := title_from false s.

(** [s.split(sep)] for a non-empty separator: the pieces between the
    successive, non-overlapping occurrences of [sep], found from the left.
    [skip] counts the characters of a just-matched separator still to be
    passed over; [cur] is the piece being read. *)
Fixpoint split_from (sep : string) (skip : nat) (cur : string) (s : string)
  : list string :=
  match s with
  | EmptyString => [cur]
  | String c s' =>
      match skip with
      | S k => split_from sep k cur s'
      | O =>
          if prefix sep s
          then cur :: split_from sep (String.length sep - 1) "" s'
          else split_from sep 0 (cur ++ String c "") s'
      end
  end.

Definition split (sep s : string) : list string := split_from sep 0 "" s.

(** [sep.join(parts)]. *)
Definition join (sep : string) (parts : list string) : string :=
  String.concat sep parts.

(** [s.replace(old, new)] for a one-character [old]. *)
Fixpoint replace (old : ascii) (new : string) (s : string) : string :=
  match s with
  | EmptyString => EmptyString
  | String c s' =>
      if Ascii.eqb c old then new ++ replace old new s'
      else String c (replace old new s')
  end.

(** White space as [str.isspace] has it on the ASCII range: the
    characters 9 to 13 and 28 to 32.  Python also counts some characters
    outside that range (such as the no-break space) as white space. *)
Definition is_space (c : ascii) : bool :=
  let n := nat_of_ascii c in
  (((9 <=? n) && (n <=? 13)) || ((28 <=? n) && (n <=? 32)))%nat.

Fixpoint lstrip (s : string) : string :=
  match s with
  | EmptyString => EmptyString
  | String c s' => if is_space c then lstrip s' else s
  end.

Fixpoint rstrip (s : string) : string :=
  match s with
  | EmptyString => EmptyString
  | String c s' =>
      match rstrip s' with
      | EmptyString => if is_space c then EmptyString else String c EmptyString
      | r => String c r
      end
  end.

(** [s.strip()] on the ASCII range. *)
Definition strip (s : string) : string := rstrip (lstrip s).

(** [s[0]]: raises on the empty string. *)
Definition first_char (s : string) : result ascii :=
  match s with
  | EmptyString => Raise IndexError
  | String c _ => Ok c
  end.

(** [s[-1]]: raises on the empty string. *)
Fixpoint last_char (s : string) : result ascii :=
  match s with
  | EmptyString => Raise IndexError
  | String c EmptyString => Ok c
  | String _ s' => last_char s'
  end.

(** [s[1:]]. *)
Definition tail (s : string) : string :=
  match s with
  | EmptyString => EmptyString
  | String _ s' => s'
  end.

(** [s[start:-1]]. *)
Definition slice_to_last (start : nat) (s : string) : string :=
  substring start (String.length s - 1 - start) s.

(** [str(n)] and ["%s" % n] for a non-negative integer. *)
Definition str_of_nat (n : nat) : string :=
  NilZero.string_of_uint (Nat.to_uint n).

(** [xs[i]]: raises when [i] is out of range. *)
Definition index {A : Type} (xs : list A) (i : nat) : result A :=
  match nth_error xs i with
  | Some x => Ok x
  | None => Raise IndexError
  end.

(** [xs[-1]] for a list known to be non-empty ([split] never returns
    an empty list); [d] is never returned on such a list. *)
Definition last_item (xs : list string) : string := List.last xs "".

(** [xs[0:-1]]. *)
Definition init_items (xs : list string) : list string := List.removelast xs.

(** [os.path.basename(p)]: what follows the last [/]. *)
Definition basename (p : string) : string := last_item (split "/" p).

(** The one-character string written [\n] in the source. *)
Definition newline : string := String (ascii_of_nat 10) EmptyString.

(** The loops of the form
    [for i, x in enumerate(xs): i and result.append(sep); result.append(f(x))]
    followed by a join of [result] on the empty string. *)
Fixpoint enumerate_loop {A : Type} (f : A -> string) (sep : string)
  (i : nat) (xs : list A) (result : string) : string :=
  match xs with
  | [] => result
  | x :: xs' =>
      enumerate_loop f sep (S i) xs'
        ((if (i =? 0)%nat then result else result ++ sep) ++ f x)
  end.

(** [c and a or b] where [a] and [b] are strings: [a] when [c] holds and
    [a] is non-empty, else [b]. *)
Definition and_or (c : bool) (a b : string) : string :=
  if c then (if a =? "" then b else a) else b.

End Py.

(** ** class StringTransform *)

Module StringTransform.

(** The values of the [delimiters] table, in its order:
    KEBAB_CASE, SNAKE_CASE, SPACE. *)
Definition KEBAB : string := "-".
Definition SNAKE : string := "_".
Definition SPACE : string := " ".
Definition delimiters : list string := [KEBAB; SNAKE; SPACE].

(** The first loop of [_string_parts]: split the lower-cased identifier
    on the first delimiter of the table that occurs in it; the list stays
    empty when none does. *)
Fixpoint split_on_first_delimiter (delims : list string) (obtained_string : string)
  : list string :=
  match delims with
  | [] => []
  | delim :: rest =>
      if Py.contains delim obtained_string
      then Py.split delim (Py.lower obtained_string)
      else split_on_first_delimiter rest obtained_string
  end.

(** [list.remove(x)]: drops the first element equal to [x]. *)
Fixpoint list_remove (x : string) (l : list string) : list string :=
  match l with
  | [] => []
  | y :: l' => if y =? x then l' else y :: list_remove x l'
  end.

(** The second loop of [_string_parts],
    [for elem in string_parts: if ...: string_parts.remove(elem)].
    The list is changed while it is iterated: the iterator holds a
    position [idx], reads the element now at that position, and stops as
    soon as [idx] is past the end of the list as it is then.  Every turn
    advances [idx], and the list never grows, so [List.length l] turns
    are always enough ([remove_loop_fuel] below). *)
Fixpoint remove_loop (fuel idx : nat) (string_parts : list string) : list string :=
  match fuel with
  | O => string_parts
  | S fuel' =>
      match nth_error string_parts idx with
      | None => string_parts
      | Some elem =>
          if (elem =? "") || (elem =? "intf")
          then remove_loop fuel' (S idx) (list_remove elem string_parts)
          else remove_loop fuel' (S idx) string_parts
      end
  end.

Definition _string_parts (obtained_string : string) : result (list string) :=
  let string_parts := split_on_first_delimiter delimiters obtained_string in
  if (List.length string_parts =? 0)%nat
  then Raise (ValueError "Error: Unsupported delimeter")
  else Ok (remove_loop (List.length string_parts) 0 string_parts).

Definition _snake_case (s : string) : result string :=
  parts <- _string_parts s ;; Ok (Py.join SNAKE parts).

Definition _kebab_case (s : string) : result string :=
  parts <- _string_parts s ;; Ok (Py.join KEBAB parts).

Definition _space_separated (s : string) : result string :=
  parts <- _string_parts s ;; Ok (Py.join SPACE parts).

Definition _pascal_case (s : string) : result string :=
  sp <- _space_separated s ;; Ok (Py.replace " " "" (Py.title sp)).

Definition _camel_case (s : string) : result string :=
  p <- _pascal_case s ;;
  c <- Py.first_char p ;;
  p' <- _pascal_case s ;;
  Ok (String (Py.lower_char c) "" ++ Py.tail p').

Definition gmock_h_file_name (s : string) : result string :=
  k <- _kebab_case s ;; Ok (k ++ KEBAB ++ "gmock.h").

Definition gmock_cpp_file_name (s : string) : result string :=
  k <- _kebab_case s ;; Ok (k ++ KEBAB ++ "gmock.cpp").

Definition gmock_class_name (s : string) : result string :=
  sn <- _snake_case s ;; Ok (Py.upper sn ++ SNAKE ++ "GMOCK").

Definition header_guard_name (s : string) : result string :=
  c <- gmock_class_name s ;; Ok (c ++ SNAKE ++ "H" ++ SNAKE).

End StringTransform.

(** ** class MockMethod *)

Module MockMethod.

(** The [operators] table: operator spelling to descriptive name. *)
Definition operators : list (string * string) :=
  [ ("operator,", "comma_operator");
    ("operator!", "logical_not_operator");
    ("operator!=", "inequality_operator");
    ("operator%", "modulus_operator");
    ("operator%=", "modulus_assignment_operator");
    ("operator&", "address_of_or_bitwise_and_operator");
    ("operator&&", "logical_and_operator");
    ("operator&=", "bitwise_and_assignment_operator");
    ("operator()", "function_call_or_cast_operator");
    ("operator*", "multiplication_or_dereference_operator");
    ("operator*=", "multiplication_assignment_operator");
    ("operator+", "addition_or_unary_plus_operator");
    ("operator++", "increment1_operator");
    ("operator+=", "addition_assignment_operator");
    ("operator-", "subtraction_or_unary_negation_operator");
    ("operator--", "decrement1_operator");
    ("operator-=", "subtraction_assignment_operator");
    ("operator->", "member_selection_operator");
    ("operator->*", "pointer_to_member_selection_operator");
    ("operator/", "division_operator");
    ("operator/=", "division_assignment_operator");
    ("operator<", "less_than_operator");
    ("operator<<", "left_shift_operator");
    ("operator<<=", "left_shift_assignment_operator");
    ("operator<=", "less_than_or_equal_to_operator");
    ("operator=", "assignment_operator");
    ("operator==", "equality_operator");
    ("operator>", "greater_than_operator");
    ("operator>=", "greater_than_or_equal_to_operator");
    ("operator>>", "right_shift_operator");
    ("operator>>=", "right_shift_assignment_operator");
    ("operator[]", "array_subscript_operator");
    ("operator^", "exclusive_or_operator");
    ("operator^=", "exclusive_or_assignment_operator");
    ("operator|", "bitwise_inclusive_or_operator");
    ("operator|=", "bitwise_inclusive_or_assignment_operator");
    ("operator||", "logical_or_operator");
    ("operator~", "complement_operator") ].

(** [table[key]], [None] when [key not in table]. *)
Fixpoint lookup (key : string) (table : list (string * string)) : option string :=
  match table with
  | [] => None
  | (k, v) :: rest => if k =? key then Some v else lookup key rest
  end.

Record t : Type := mk {
  result_type : string;
  name : string;
  is_const : bool;
  is_template : bool;
  args_size : nat;
  args : string;
  args_prefix : string
}.

Definition _named_args (self : t) : string :=
  Py.enumerate_loop (fun i => args_prefix self ++ Py.str_of_nat i) ", " 0
    (seq 0 (args_size self)) "".

(** The character loop of [_named_args_with_types]; the state is
    [(result, in_type, i)]. *)
Fixpoint named_args_loop (prefix : string) (s : string)
  (result : string) (in_type : bool) (i : nat) : string * nat :=
  match s with
  | EmptyString => (result, i)
  | String ch s' =>
      let c := String ch EmptyString in
      let in_type :=
        if Py.mem c ["<"; "("] then true
        else if Py.mem c [">"; ")"] then false
        else in_type in
      if negb in_type && (c =? ",")
      then named_args_loop prefix s'
             (result ++ (" " ++ prefix ++ Py.str_of_nat i) ++ c) in_type (S i)
      else named_args_loop prefix s' (result ++ c) in_type i
  end.

Definition _named_args_with_types (self : t) : string :=
  if args self =? "" then ""
  else
    let '(result, i) := named_args_loop (args_prefix self) (args self) "" false 0 in
    result ++ (" " ++ args_prefix self ++ Py.str_of_nat i).

(** The forwarding wrapper rendered for an operator, after [gap]. *)
Definition wrapper_line (self : t) (descriptive : string) : string :=
  "virtual " ++ result_type self ++ " " ++ name self
    ++ "(" ++ args self ++ ") "
    ++ Py.and_or (is_const self) "const " ""
    ++ "{ "
    ++ Py.and_or (negb (Py.strip (result_type self) =? "void")) "return" ""
    ++ " "
    ++ (descriptive ++ "(" ++ args self ++ ")")
    ++ "; }" ++ Py.newline.

(** The mocking-macro line, after [gap], under the name [name]. *)
Definition macro_line (self : t) (name : string) : string :=
  "MOCK_" ++ Py.and_or (is_const self) "CONST_" ""
    ++ "METHOD" ++ Py.str_of_nat (args_size self)
    ++ Py.and_or (is_template self) "_T" ""
    ++ "(" ++ name ++ ", " ++ result_type self
    ++ "(" ++ args self ++ "));".

Definition to_string (self : t) (gap : string) : string :=
  match lookup (name self) operators with
  | Some descriptive =>
      gap ++ wrapper_line self descriptive ++ gap ++ macro_line self descriptive
  | None =>
      gap ++ macro_line self (name self)
  end.

(** The default value of [gap]. *)
Definition default_gap : string := "    ".

End MockMethod.

(** ** The declaration tree of the external parser *)

(** The cursor kinds the program tells apart; [OTHER_KIND] stands for every
    other kind of [CursorKind]. *)
Inductive CursorKind : Type :=
| CXX_METHOD
| CLASS_TEMPLATE
| STRUCT_DECL
| CLASS_DECL
| NAMESPACE
| OTHER_KIND.

(** A cursor, with what the program reads from it: [kind], [displayname],
    [spelling], the spellings of [get_tokens()], [is_const_method()],
    [location.file.name] and [get_children()]. *)
#[warnings="-register-all"] Inductive Cursor : Type :=
| mkCursor (kind : CursorKind) (displayname spelling : string)
    (tokens : list string) (is_const_method : bool) (file : string)
    (children : list Cursor).

Definition is_container (k : CursorKind) : bool :=
  match k with
  | CLASS_TEMPLATE | STRUCT_DECL | CLASS_DECL | NAMESPACE => true
  | _ => false
  end.

(** ** class MockGenerator *)

Module MockGenerator.

(** The fields of the object: the scope restriction [expr], the output
    directory [path] and the root [cursor] of the parsed file. *)
Record t : Type := mk {
  expr : string;
  path : string;
  cursor : Cursor
}.

Definition _is_template_class (expr : string) : bool := Py.contains "<" expr.

(** [tok[0] == ">" and tok[-1] == ">"]. *)
Definition is_closing_run (tok : string) : result bool :=
  c0 <- Py.first_char tok ;;
  if Ascii.eqb c0 ">"
  then (cl <- Py.last_char tok ;; Ok (Ascii.eqb cl ">"))
  else Ok false.

(** One turn of the [while] loop of [_get_arguments_and_num_args], once
    [tok = tokens[i]] and [next = tokens[i + 1]] are read: the new
    [(args_with_types, (in_between_template_type,
    number_of_commas_encountered))]. *)
Definition copy_step (tok next : string) (args_with_types : string)
  (in_between_template_type : bool) (number_of_commas_encountered : nat)
  : result (string * (bool * nat)) :=
  let args_with_types := args_with_types ++ tok in
  no_space <-
    (if Py.mem next ["::"; ","; ")"; "<"; ">"] then Ok true
     else if Py.mem tok ["::"; "<"] then Ok true
     else is_closing_run next) ;;
  let args_with_types :=
    if no_space then args_with_types else args_with_types ++ " " in
  flags <-
    (if tok =? "<" then Ok (true, number_of_commas_encountered)
     else
       closing <- is_closing_run next ;;
       if closing then Ok (false, number_of_commas_encountered)
       else if (tok =? ",") && negb in_between_template_type
       then Ok (in_between_template_type, number_of_commas_encountered + 1)
       else Ok (in_between_template_type, number_of_commas_encountered)) ;;
  Ok (args_with_types, flags).

(** The [while tokens[i] != ")"] loop.  Every turn reads [tokens[i + 1]]
    and advances [i], so the loop ends (by reaching [")"] or by an
    [IndexError]) within [List.length tokens - i] turns; [None] is the
    out-of-fuel answer, which [copy_loop_total] below rules out. *)
Fixpoint copy_loop (fuel : nat) (tokens : list string) (i : nat)
  (args_with_types : string) (in_between_template_type : bool)
  (number_of_commas_encountered : nat) : option (result (string * nat)) :=
  match fuel with
  | O => None
  | S fuel' =>
      match Py.index tokens i with
      | Raise e => Some (Raise e)
      | Ok tok =>
          if tok =? ")"
          then Some (Ok (args_with_types, number_of_commas_encountered))
          else
            match Py.index tokens (i + 1) with
            | Raise e => Some (Raise e)
            | Ok next =>
                match copy_step tok next args_with_types
                        in_between_template_type
                        number_of_commas_encountered with
                | Raise e => Some (Raise e)
                | Ok (args_with_types, (in_between, commas)) =>
                    copy_loop fuel' tokens (i + 1) args_with_types in_between commas
                end
            end
      end
  end.

(** The head of one turn of the [for i in range(1, len(tokens))] loop:
    the value of [i] after the test for the call operator (assigning
    [i = i + 3] changes [i] for the rest of that turn only), and whether
    [tokens[i - 1] == "("]. *)
Definition locate (tokens : list string) (i : nat) : result (nat * bool) :=
  prev <- Py.index tokens (i - 1) ;;
  i <- (if prev =? "operator" then
          cur <- Py.index tokens i ;;
          if cur =? "(" then
            next <- Py.index tokens (i + 1) ;;
            Ok (if next =? ")" then i + 3 else i)
          else Ok i
        else Ok i) ;;
  before <- Py.index tokens (i - 1) ;;
  Ok (i, before =? "(").

(** The [for] loop over the indices still to visit.  The loop leaves (by
    [break]) right after its first [while] loop; until then the argument
    text is empty and no comma is counted. *)
Fixpoint scan_loop (fuel : nat) (tokens : list string) (indices : list nat)
  : option (result (string * nat)) :=
  match indices with
  | [] => Some (Ok ("", 0))
  | i :: later =>
      match locate tokens i with
      | Raise e => Some (Raise e)
      | Ok (i, true) => copy_loop fuel tokens i "" false 0
      | Ok (_, false) => scan_loop fuel tokens later
      end
  end.

(** [_get_arguments_and_num_args].  The fuel given to the loops is more
    than the number of tokens, so that the [None] branch is never taken
    ([scan_loop_total] below). *)
Definition _get_arguments_and_num_args (tokens : list string)
  : result (nat * string) :=
  match scan_loop (S (List.length tokens)) tokens
          (seq 1 (List.length tokens - 1)) with
  | None => Raise IndexError
  | Some r =>
      '(args_with_types, number_of_commas_encountered) <- r ;;
      let num_args :=
        if (String.length args_with_types =? 0)%nat then 0
        else number_of_commas_encountered + 1 in
      Ok (num_args, args_with_types)
  end.

(** The loop of [_get_result_type], with its [break]. *)
Fixpoint result_type_loop (tokens : list string) (name : string)
  (result_type : list string) : list string :=
  match tokens with
  | [] => result_type
  | token :: rest =>
      if Py.mem token [name; "operator"] then result_type
      else
        let result_type :=
          if negb (Py.mem token ["virtual"; "inline"; "volatile"])
          then (result_type ++ [token])%list else result_type in
        let result_type :=
          if Py.mem token ["const"; "volatile"]
          then (result_type ++ [" "])%list else result_type in
        result_type_loop rest name result_type
  end.

Definition _get_result_type (tokens : list string) (name : string) : string :=
  Py.join "" (result_type_loop tokens name []).

(** The character loop of [_pretty_template]; the state is
    [(first, typename, typenames)]. *)
Fixpoint template_loop (s : string) (first : bool) (typename : string)
  (typenames : list string) : list string :=
  match s with
  | EmptyString => typenames
  | String ch s' =>
      let token := String ch EmptyString in
      if token =? "<" then template_loop s' true typename typenames
      else if token =? "," then template_loop s' first "" (typenames ++ [typename])%list
      else if token =? ">" then template_loop s' first "" (typenames ++ [typename])%list
      else if token =? " " then template_loop s' first typename typenames
      else if first then template_loop s' first (typename ++ token) typenames
      else template_loop s' first typename typenames
  end.

Definition _pretty_template (expr : string) : string :=
  let typenames :=
    template_loop (Py.last_item (Py.split "::" expr)) false "" [] in
  if (0 <? List.length typenames)%nat
  then "template<"
         ++ Py.enumerate_loop (fun t => "typename " ++ t) ", " 0 typenames ""
         ++ ">" ++ Py.newline
  else "".

Definition _pretty_mock_methods (mock_methods : list MockMethod.t) : string :=
  Py.enumerate_loop
    (fun mock_method => MockMethod.to_string mock_method MockMethod.default_gap)
    Py.newline 0 mock_methods "".

Definition _pretty_namespaces_begin (expr : string) : string :=
  Py.enumerate_loop (fun namespace => "namespace " ++ namespace ++ " {")
    Py.newline 0 (Py.init_items (Py.split "::" expr)) "".

Definition _pretty_namespaces_end (expr : string) : string :=
  Py.enumerate_loop (fun namespace => "} // namespace " ++ namespace)
    Py.newline 0 (Py.init_items (Py.split "::" expr)) "".

(** The character loop of [_get_interface]; the state is
    [(result, ignore)]. *)
Fixpoint interface_loop (s : string) (result : string) (ignore : bool) : string :=
  match s with
  | EmptyString => result
  | String ch s' =>
      let token := String ch EmptyString in
      let ignore := if token =? "<" then true else ignore in
      let result := if negb ignore then result ++ token else result in
      let ignore := if token =? ">" then false else ignore in
      interface_loop s' result ignore
  end.

Definition _get_interface (expr : string) : string :=
  interface_loop (Py.last_item (Py.split "::" expr)) "" false.

(** The dictionary [mock_methods], in insertion order.  The value stored
    under a qualified name is the Python list [[file, m1, m2, ...]]: its
    first item, the file, and the items after it, the mock methods, are
    kept apart here. *)
Definition interface_record : Type := (string * list MockMethod.t)%type.
Definition mock_methods_dict : Type := list (string * interface_record).

(** [mock_methods.setdefault(key, [file]).append(m)]. *)
Fixpoint setdefault_append (mock_methods : mock_methods_dict) (key file : string)
  (m : MockMethod.t) : mock_methods_dict :=
  match mock_methods with
  | [] => [(key, (file, [m]))]
  | (k, (f, ms)) :: rest =>
      if k =? key then (k, (f, (ms ++ [m])%list)) :: rest
      else (k, (f, ms)) :: setdefault_append rest key file m
  end.

(** The qualified name of a container [name] met under [expr]:
    [expr == "" and name or expr + (name == "" and "" or "::") + name]. *)
Definition extend (expr name : string) : string :=
  Py.and_or (expr =? "") name (expr ++ Py.and_or (name =? "") "" "::" ++ name).

(** [_get_mock_methods]; [restriction] is [self.expr].  An exception
    raised at a method node leaves through every enclosing call. *)
Fixpoint _get_mock_methods (restriction : string) (node : Cursor)
  (mock_methods : mock_methods_dict) (expr : string) : result mock_methods_dict :=
  match node with
  | mkCursor kind name spelling tokens is_const file children =>
      let visit_children (expr : string) :=
        (fix visit (cs : list Cursor) (mock_methods : mock_methods_dict)
           : result mock_methods_dict :=
           match cs with
           | [] => Ok mock_methods
           | c :: cs' =>
               mock_methods <- _get_mock_methods restriction c mock_methods expr ;;
               visit cs' mock_methods
           end) children mock_methods in
      match kind with
      | CXX_METHOD =>
          '(num_args, args_with_types) <- _get_arguments_and_num_args tokens ;;
          Ok (setdefault_append mock_methods expr file
                (MockMethod.mk
                   (_get_result_type tokens spelling)
                   spelling
                   is_const
                   (_is_template_class expr)
                   num_args
                   args_with_types
                   (Py.slice_to_last (String.length spelling + 1) name)))
      | CLASS_TEMPLATE | STRUCT_DECL | CLASS_DECL | NAMESPACE =>
          let expr := extend expr name in
          if Py.startswith expr restriction
          then visit_children expr
          else Ok mock_methods
      | OTHER_KIND => visit_children expr
      end
  end.

(** The children loop of [_get_mock_methods], on its own. *)
Fixpoint visit_all (restriction : string) (cs : list Cursor)
  (mock_methods : mock_methods_dict) (expr : string) : result mock_methods_dict :=
  match cs with
  | [] => Ok mock_methods
  | c :: cs' =>
      mock_methods <- _get_mock_methods restriction c mock_methods expr ;;
      visit_all restriction cs' mock_methods expr
  end.

(** The replacement mapping, one field per key. *)
Record replacements : Type := mk_replacements {
  mock_file_hpp : string;
  mock_file_cpp : string;
  generated_dir : string;
  guard : string;
  file : string;
  namespaces_begin : string;
  interface : string;
  class_name : string;
  template_class_name : string;
  template_interface : string;
  template : string;
  mock_methods : string;
  namespaces_end : string
}.

Definition _get_templated_class_name (className templateInterfaceName : string)
  : string :=
  if negb (Py.contains "<" templateInterfaceName) then className
  else className ++ ("<" ++ Py.last_item (Py.split "<" templateInterfaceName)).

(** What [generate_data] does once the first key [expr] of the dictionary
    and its record are known.  The properties of the identifier object are
    evaluated in the order of the source. *)
Definition build_replacements (self : t) (expr : string)
  (mock_methods_list : interface_record) : result replacements :=
  let interfaceNameObj := _get_interface expr in
  c <- StringTransform.gmock_class_name interfaceNameObj ;;
  let templatedClassName :=
    _get_templated_class_name c (Py.last_item (Py.split "::" expr)) in
  hpp <- StringTransform.gmock_h_file_name interfaceNameObj ;;
  cpp <- StringTransform.gmock_cpp_file_name interfaceNameObj ;;
  g <- StringTransform.header_guard_name interfaceNameObj ;;
  sn <- StringTransform._snake_case interfaceNameObj ;;
  cn <- StringTransform.gmock_class_name interfaceNameObj ;;
  Ok {| mock_file_hpp := hpp;
        mock_file_cpp := cpp;
        generated_dir := path self;
        guard := g;
        file := Py.basename (fst mock_methods_list);
        namespaces_begin := _pretty_namespaces_begin expr;
        interface := Py.upper sn;
        class_name := cn;
        template_class_name := templatedClassName;
        template_interface := Py.last_item (Py.split "::" expr);
        template := _pretty_template expr;
        mock_methods := _pretty_mock_methods (snd mock_methods_list);
        namespaces_end := _pretty_namespaces_end expr |}.

(** The dictionary filled by the walk from the root cursor. *)
Definition collect (self : t) : result mock_methods_dict :=
  _get_mock_methods (expr self) (cursor self) [] "".

Definition generate_data (self : t) : result replacements :=
  mock_methods <- collect self ;;
  match mock_methods with
  | [] => Raise (RuntimeError "Error: could not process interface methods.")
  | (expr, mock_methods_list) :: _ =>
      build_replacements self expr mock_methods_list
  end.

End MockGenerator.

(** ** Reference definitions

    What the properties below compare the program with. *)

Module Spec.

(** A closing angle-bracket run: a non-empty token whose first and last
    characters are both [>]. *)
Definition closing_run (tok : string) : bool :=
  match MockGenerator.is_closing_run tok with
  | Ok b => b
  | Raise _ => false
  end.

(** The commas of a parameter list that are nested in no [<...>]:
    [depth] is the number of template brackets open at this point; a
    closing run closes as many of them as it has characters. *)
Fixpoint top_level_commas_from (depth : nat) (params : list string) : nat :=
  match params with
  | [] => 0
  | tok :: rest =>
      if tok =? "<" then top_level_commas_from (S depth) rest
      else if closing_run tok
      then top_level_commas_from (depth - String.length tok) rest
      else if (tok =? ",") && (depth =? 0)%nat
      then S (top_level_commas_from depth rest)
      else top_level_commas_from depth rest
  end.

Definition top_level_commas (params : list string) : nat :=
  top_level_commas_from 0 params.

(** The [while] loop of [_get_arguments_and_num_args] read as a recursion
    on the tokens from position [i] on: [tok] is [tokens[i]] and [next]
    is [tokens[i + 1]]. *)
Fixpoint copy_params (from_i : list string) (args_with_types : string)
  (in_between_template_type : bool) (number_of_commas_encountered : nat)
  : result (string * nat) :=
  match from_i with
  | [] => Raise IndexError
  | tok :: from_next =>
      if tok =? ")"
      then Ok (args_with_types, number_of_commas_encountered)
      else
        match from_next with
        | [] => Raise IndexError
        | next :: _ =>
            st <- MockGenerator.copy_step tok next args_with_types
                    in_between_template_type number_of_commas_encountered ;;
            copy_params from_next (fst st) (fst (snd st)) (snd (snd st))
        end
  end.

(** The last two statements of [_get_arguments_and_num_args]. *)
Definition finish (r : result (string * nat)) : result (nat * string) :=
  '(args_with_types, number_of_commas_encountered) <- r ;;
  Ok (if (String.length args_with_types =? 0)%nat then 0
      else number_of_commas_encountered + 1,
      args_with_types).

(** The tokens strictly before the first one equal to [name] or to
    [operator]. *)
Fixpoint before_name (tokens : list string) (name : string) : list string :=
  match tokens with
  | [] => []
  | token :: rest =>
      if Py.mem token [name; "operator"] then []
      else token :: before_name rest name
  end.

(** The result type as the specification words it: the qualifiers
    [virtual], [inline], [volatile] are left out, and a space follows each
    [const] or [volatile] token that is kept. *)
Definition kept (token : string) : bool :=
  negb (Py.mem token ["virtual"; "inline"; "volatile"]).

Definition worded_piece (token : string) : string :=
  if Py.mem token ["const"; "volatile"] then token ++ " " else token.

Definition worded_result_type (tokens : list string) (name : string) : string :=
  String.concat "" (map worded_piece (filter kept (before_name tokens name))).

(** What one token contributes in the program: its spelling unless it is
    one of the three qualifiers, then a space if it is [const] or
    [volatile]. *)
Definition piece (token : string) : string :=
  (if kept token then token else "")
    ++ (if Py.mem token ["const"; "volatile"] then " " else "").

(** An identifier has one of the three delimiters. *)
Definition has_delimiter (identifier : string) : bool :=
  existsb (fun delim => Py.contains delim identifier) StringTransform.delimiters.

(** The qualified names under which the dictionary holds a record. *)
Definition keys (mock_methods : MockGenerator.mock_methods_dict) : list string :=
  map fst mock_methods.

End Spec.

(** ** Sample inputs *)

Module Sample.

(** [void f(map<vector<int>, int>)]. *)
Definition nested_params : list string :=
  ["map"; "<"; "vector"; "<"; "int"; ">"; ","; "int"; ">"].
Definition nested_tokens : list string :=
  (["void"; "f"; "("] ++ nested_params ++ [")"])%list.

(** [void f(map<int, int>)]. *)
Definition map_params : list string := ["map"; "<"; "int"; ","; "int"; ">"].
Definition map_tokens : list string :=
  (["void"; "f"; "("] ++ map_params ++ [")"])%list.

(** [void operator()(int)]. *)
Definition call_operator_tokens : list string :=
  ["void"; "operator"; "("; ")"; "("; "int"; ")"].

(** [std::function<void()> operator()(int)]: a result type with
    parentheses of its own. *)
Definition returning_function_tokens : list string :=
  ["std"; "::"; "function"; "<"; "void"; "("; ")"; ">";
   "operator"; "("; ")"; "("; "int"; ")"].

(** [void bar(int, std::string)]. *)
Definition bar_tokens : list string :=
  ["void"; "bar"; "("; "int"; ","; "std"; "::"; "string"; ")"].

Definition bar : Cursor :=
  mkCursor CXX_METHOD "bar(int, std::string)" "bar" bar_tokens false
    "include/foo.h" [].

(** A translation unit holding [namespace ns { class <interface> { bar } }]. *)
Definition ns_interface (interface : string) : Cursor :=
  mkCursor NAMESPACE "ns" "ns" [] false ""
    [mkCursor CLASS_DECL interface interface [] false "" [bar]].

Definition unit_of (interface : string) : Cursor :=
  mkCursor OTHER_KIND "~.hpp" "~.hpp" [] false "" [ns_interface interface].

(** Two interfaces [a::X_One] and [b::Y_Two], in this order. *)
Definition two_interfaces : Cursor :=
  mkCursor OTHER_KIND "~.hpp" "~.hpp" [] false ""
    [ mkCursor NAMESPACE "a" "a" [] false ""
        [mkCursor CLASS_DECL "X_One" "X_One" [] false "" [bar]];
      mkCursor NAMESPACE "b" "b" [] false ""
        [mkCursor CLASS_DECL "Y_Two" "Y_Two" [] false "" [bar]] ].

(** The mock method made of [bar], and what the walk over
    [two_interfaces] collects. *)
Definition bar_method : MockMethod.t :=
  MockMethod.mk "void" "bar" false false 2 "int, std::string" "int, std::string".

Definition two_collected : MockGenerator.mock_methods_dict :=
  [ ("a::X_One", ("include/foo.h", [bar_method]));
    ("b::Y_Two", ("include/foo.h", [bar_method])) ].

(** A translation unit with no declaration at all. *)
Definition empty_unit : Cursor :=
  mkCursor OTHER_KIND "~.hpp" "~.hpp" [] false "" [].

Definition equality : MockMethod.t :=
  MockMethod.mk "bool" "operator==" true false 1 "const Foo &" "arg".

Definition equality_renamed : MockMethod.t :=
  MockMethod.mk "bool" "operator==" true false 1 "const Foo &" "p".

End Sample.

(** ** Notions used by the further properties *)

Module Notions.

(** Every character of [s] satisfies [p]; [c] occurs in [s]. *)
Fixpoint all_chars (p : ascii -> bool) (s : string) : bool :=
  match s with
  | EmptyString => true
  | String c s' => p c && all_chars p s'
  end.

Fixpoint has_char (c : ascii) (s : string) : bool :=
  match s with
  | EmptyString => false
  | String x s' => Ascii.eqb x c || has_char c s'
  end.

Definition not_upper (c : ascii) : bool := negb (Py.is_upper c).
Definition not_lower (c : ascii) : bool := negb (Py.is_lower c).

(** The delimiter [_string_parts] splits on: the first of the table that
    occurs in the identifier. *)
Definition detected_delimiter (identifier : string) : option string :=
  find (fun delim => Py.contains delim identifier) StringTransform.delimiters.

Definition delimiter_char (c : ascii) : bool :=
  Py.mem (String c EmptyString) StringTransform.delimiters.

(** A character of the ASCII range.  The identifiers of C++ sources are
    made of such characters, and on them the case mappings of [Py] are
    those of Python. *)
Definition is_ascii (c : ascii) : bool := (nat_of_ascii c <? 128)%nat.

(** A word segment in its final form: made of ASCII characters, not
    empty, not the marker [intf], with no upper-case letter and no
    delimiter. *)
Definition word (p : string) : bool :=
  negb (p =? "") && negb (p =? "intf")
  && all_chars (fun c => is_ascii c && not_upper c && negb (delimiter_char c)) p.

(** A word as it is written in an identifier, in any case: made of ASCII
    characters, not empty, with no delimiter, and not the marker [intf]
    once in lower case. *)
Definition raw_word (p : string) : bool :=
  negb (p =? "") && negb (Py.lower p =? "intf")
  && all_chars (fun c => is_ascii c && negb (delimiter_char c)) p.

(** The characters of a C++ identifier written in lower case, and such an
    identifier. *)
Definition identifier_char (c : ascii) : bool :=
  let n := nat_of_ascii c in
  (Py.is_lower c || ((48 <=? n) && (n <=? 57)) || (n =? 95))%nat.

Definition identifier (s : string) : bool :=
  negb (s =? "") && all_chars identifier_char s.

(** No string occurs twice in [l]. *)
Fixpoint distinct (l : list string) : bool :=
  match l with
  | [] => true
  | x :: l' => negb (Py.mem x l') && distinct l'
  end.

(** [mock_methods.get(key)]. *)
Fixpoint find_record (key : string) (mock_methods : MockGenerator.mock_methods_dict)
  : option MockGenerator.interface_record :=
  match mock_methods with
  | [] => None
  | (k, record) :: rest => if k =? key then Some record else find_record key rest
  end.

(** The method nodes of a declaration tree; nothing below a method node is
    looked at. *)
Fixpoint count_methods (node : Cursor) : nat :=
  match node with
  | mkCursor CXX_METHOD _ _ _ _ _ _ => 1
  | mkCursor _ _ _ _ _ _ children => list_sum (map count_methods children)
  end.

(** The mock methods held by a dictionary, all records together. *)
Definition total_methods (mock_methods : MockGenerator.mock_methods_dict) : nat :=
  list_sum (map (fun entry => List.length (snd (snd entry))) mock_methods).

(** A mock method as the walk makes it for a method met under [key]. *)
Definition made_under (key : string) (m : MockMethod.t) : Prop :=
  MockMethod.is_template m = MockGenerator._is_template_class key
  /\ (MockMethod.args_size m = 0 <-> MockMethod.args m = "").

Definition all_made_under (mock_methods : MockGenerator.mock_methods_dict) : Prop :=
  forall key file ms m,
    In (key, (file, ms)) mock_methods -> In m ms -> made_under key m.

(** A parameter list whose template brackets are not nested: no token is
    empty or [")"], a ["<"] opens only outside brackets and is not followed
    at once by a closing run, and a closing run comes only inside
    brackets; at the end every bracket is closed.  [inside] tells whether
    a bracket is open. *)
Fixpoint flat_from (inside : bool) (params : list string) : bool :=
  match params with
  | [] => negb inside
  | tok :: rest =>
      negb (tok =? "") && negb (tok =? ")")
      && (if tok =? "<"
          then negb inside
               && negb (match rest with
                        | next :: _ => Spec.closing_run next
                        | [] => false
                        end)
               && flat_from true rest
          else if Spec.closing_run tok then inside && flat_from false rest
          else flat_from inside rest)
  end.

Definition flat (params : list string) : bool := flat_from false params.

(** The characters of the name before [<] and of a template parameter
    name in a last segment [Name<T1, T2>]. *)
Definition class_name_char (c : ascii) : bool :=
  negb (Py.mem (String c EmptyString) ["<"; ","; ">"]).

Definition parameter_char (c : ascii) : bool :=
  negb (Py.mem (String c EmptyString) ["<"; ","; ">"; " "]).

(** The nesting depth of a flat list: one inside a bracket. *)
Definition depth_of (inside : bool) : nat := if inside then 1 else 0.

(** The flag of the program against the nesting of a flat list: they
    agree, except that the flag is already cleared when the token at hand
    is a closing run. *)
Definition flag_agrees (inside f : bool) (params : list string) : Prop :=
  match params with
  | tok :: _ => if Spec.closing_run tok then f = false else f = inside
  | [] => f = inside
  end.

End Notions.

(** * Properties *)

(** ** Strings and results *)

Lemma append_assoc (a b c : string) : (a ++ b) ++ c = a ++ (b ++ c).
Proof.
  induction a as [|ch a IH]; simpl; [reflexivity | now rewrite IH].
Qed.

Lemma append_empty_r (a : string) : a ++ "" = a.
Proof.
  induction a as [|ch a IH]; simpl; [reflexivity | now rewrite IH].
Qed.

Lemma bind_ok {A B : Type} (c : result A) (k : A -> result B) (b : B) :
  bind c k = Ok b -> exists a, c = Ok a /\ k a = Ok b.
Proof.
  destruct c as [a|e]; simpl; intros H; [eauto | discriminate].
Qed.

Lemma bind_value_error {A B : Type} (c : result A) (k : A -> result B) :
  (forall a, is_value_error (k a) = false) ->
  is_value_error (bind c k) = is_value_error c.
Proof.
  intros Hk. destruct c as [a|e]; simpl; [apply Hk | reflexivity].
Qed.

(** ** MockMethod.to_string *)

Section Rendering.

Import MockMethod.

(** C10: two mock methods that differ in [args_prefix] only are rendered
    to the same text, whatever the gap: rendering never writes a
    synthesized [<prefix><index>] parameter name. *)
Theorem to_string_ignores_args_prefix (m1 m2 : MockMethod.t) (gap : string) :
  result_type m1 = result_type m2 ->
  name m1 = name m2 ->
  is_const m1 = is_const m2 ->
  is_template m1 = is_template m2 ->
  args_size m1 = args_size m2 ->
  args m1 = args m2 ->
  to_string m1 gap = to_string m2 gap.
Proof.
  intros Hr Hn Hc Ht Hs Ha.
  unfold to_string, wrapper_line, macro_line.
  rewrite Hr, Hn, Hc, Ht, Hs, Ha. reflexivity.
Qed.

Lemma to_string_ignores_args_prefix_witness :
  args_prefix Sample.equality <> args_prefix Sample.equality_renamed /\
  to_string Sample.equality "    " = to_string Sample.equality_renamed "    ".
Proof.
  split.
  - simpl. discriminate.
  - apply (to_string_ignores_args_prefix Sample.equality Sample.equality_renamed);
      reflexivity.
Defined.

(** The helpers that do synthesize parameter names depend on the prefix;
    [to_string] calls neither. *)
Example named_args_depend_on_prefix :
  _named_args Sample.equality = "arg0" /\
  _named_args Sample.equality_renamed = "p0" /\
  _named_args_with_types Sample.equality = "const Foo & arg0" /\
  _named_args_with_types Sample.equality_renamed = "const Foo & p0".
Proof. repeat split; reflexivity. Qed.

(** C7: a mock method named by a key of the operator table is rendered as
    the forwarding wrapper, which carries the operator spelling and the
    signature and delegates to the descriptive name, followed by the
    mocking-macro line under the descriptive name; the wrapper has
    [return] exactly when the trimmed result type is not [void]. *)
Theorem to_string_operator (self : MockMethod.t) (gap descriptive : string) :
  lookup (name self) operators = Some descriptive ->
  exists ret : string,
    to_string self gap =
      gap ++ "virtual " ++ result_type self ++ " " ++ name self
        ++ "(" ++ args self ++ ") "
        ++ (if is_const self then "const " else "")
        ++ "{ " ++ ret ++ " " ++ descriptive ++ "(" ++ args self ++ "); }"
        ++ Py.newline
        ++ gap ++ "MOCK_" ++ (if is_const self then "CONST_" else "")
        ++ "METHOD" ++ Py.str_of_nat (args_size self)
        ++ (if is_template self then "_T" else "")
        ++ "(" ++ descriptive ++ ", " ++ result_type self
        ++ "(" ++ args self ++ "));"
    /\ (ret = "return" \/ ret = "")
    /\ (ret = "return" <-> Py.strip (result_type self) <> "void").
Proof.
  intros Hkey.
  exists (if Py.strip (result_type self) =? "void" then "" else "return").
  split; [|split].
  - unfold to_string. rewrite Hkey.
    unfold wrapper_line, macro_line, Py.and_or.
    destruct (is_const self), (is_template self),
      (Py.strip (result_type self) =? "void"); simpl negb; cbv iota;
      change ("const " =? "") with false; change ("CONST_" =? "") with false;
      change ("return" =? "") with false; change ("_T" =? "") with false;
      cbv iota; repeat rewrite append_assoc; reflexivity.
  - destruct (Py.strip (result_type self) =? "void"); auto.
  - destruct (String.eqb_spec (Py.strip (result_type self)) "void") as [E|E].
    + split; [discriminate | intros H; now elim H].
    + split; [intros _; exact E | reflexivity].
Qed.

Lemma to_string_operator_witness :
  lookup (name Sample.equality) operators = Some "equality_operator" /\
  exists ret : string,
    to_string Sample.equality "    " =
      "    " ++ "virtual " ++ "bool" ++ " " ++ "operator=="
        ++ "(" ++ "const Foo &" ++ ") "
        ++ "const "
        ++ "{ " ++ ret ++ " " ++ "equality_operator" ++ "(" ++ "const Foo &" ++ "); }"
        ++ Py.newline
        ++ "    " ++ "MOCK_" ++ "CONST_"
        ++ "METHOD" ++ "1"
        ++ ""
        ++ "(" ++ "equality_operator" ++ ", " ++ "bool"
        ++ "(" ++ "const Foo &" ++ "));"
    /\ (ret = "return" \/ ret = "")
    /\ (ret = "return" <-> Py.strip "bool" <> "void").
Proof.
  split; [reflexivity|].
  apply (to_string_operator Sample.equality "    " "equality_operator").
  reflexivity.
Defined.

End Rendering.

(** ** StringTransform *)

Section Identifiers.

Import StringTransform.

Lemma split_from_not_nil (sep : string) (s : string) (skip : nat) (cur : string) :
  Py.split_from sep skip cur s <> [].
Proof.
  revert skip cur.
  induction s as [|c s IH]; intros skip cur; simpl.
  - discriminate.
  - destruct skip as [|k]; [|apply IH].
    match goal with
    | |- (if ?b then _ else _) <> _ => destruct b
    end; [intros H; discriminate H | apply IH].
Qed.

Lemma split_on_first_delimiter_nil (delims : list string) (s : string) :
  split_on_first_delimiter delims s = [] <->
  existsb (fun delim => Py.contains delim s) delims = false.
Proof.
  induction delims as [|d ds IH]; simpl.
  - tauto.
  - destruct (Py.contains d s); simpl.
    + split; [|discriminate].
      intros H. now apply split_from_not_nil in H.
    + exact IH.
Qed.

Lemma string_parts_value_error (s : string) :
  is_value_error (_string_parts s) = negb (Spec.has_delimiter s).
Proof.
  unfold _string_parts, Spec.has_delimiter.
  destruct (existsb (fun delim => Py.contains delim s) delimiters) eqn:E.
  - destruct (split_on_first_delimiter delimiters s) eqn:P.
    + apply split_on_first_delimiter_nil in P. congruence.
    + reflexivity.
  - apply split_on_first_delimiter_nil in E. rewrite E. reflexivity.
Qed.

Lemma joined_value_error (sep : string) (s : string) :
  is_value_error (parts <- _string_parts s ;; Ok (Py.join sep parts))
  = negb (Spec.has_delimiter s).
Proof.
  rewrite bind_value_error; [apply string_parts_value_error | reflexivity].
Qed.

(** C9: each derivation of the identifier transformer raises a
    [ValueError] exactly when the identifier has none of the delimiters
    [-], [_] and the space, as the single word [IFoo] has none; when one
    does, all do, so that no name is derived. *)
Theorem value_error_iff_no_delimiter (identifier : string) :
  is_value_error (_string_parts identifier) = negb (Spec.has_delimiter identifier)
  /\ is_value_error (_snake_case identifier) = negb (Spec.has_delimiter identifier)
  /\ is_value_error (_kebab_case identifier) = negb (Spec.has_delimiter identifier)
  /\ is_value_error (_space_separated identifier) = negb (Spec.has_delimiter identifier)
  /\ is_value_error (_pascal_case identifier) = negb (Spec.has_delimiter identifier)
  /\ is_value_error (_camel_case identifier) = negb (Spec.has_delimiter identifier)
  /\ is_value_error (gmock_h_file_name identifier) = negb (Spec.has_delimiter identifier)
  /\ is_value_error (gmock_cpp_file_name identifier) = negb (Spec.has_delimiter identifier)
  /\ is_value_error (gmock_class_name identifier) = negb (Spec.has_delimiter identifier)
  /\ is_value_error (header_guard_name identifier) = negb (Spec.has_delimiter identifier)
  /\ Spec.has_delimiter "IFoo" = false
  /\ _string_parts "IFoo" = Raise (ValueError "Error: Unsupported delimeter").
Proof.
  assert (Hpascal : is_value_error (_pascal_case identifier)
                    = negb (Spec.has_delimiter identifier)).
  { unfold _pascal_case, _space_separated.
    rewrite bind_value_error; [apply joined_value_error | reflexivity]. }
  assert (Hclass : is_value_error (gmock_class_name identifier)
                   = negb (Spec.has_delimiter identifier)).
  { unfold gmock_class_name, _snake_case.
    rewrite bind_value_error; [apply joined_value_error | reflexivity]. }
  repeat split.
  - apply string_parts_value_error.
  - apply joined_value_error.
  - apply joined_value_error.
  - apply joined_value_error.
  - exact Hpascal.
  - unfold _camel_case. rewrite <- Hpascal.
    destruct (_pascal_case identifier) as [p|e]; simpl; [|reflexivity].
    destruct p; reflexivity.
  - unfold gmock_h_file_name, _kebab_case.
    rewrite bind_value_error; [apply joined_value_error | reflexivity].
  - unfold gmock_cpp_file_name, _kebab_case.
    rewrite bind_value_error; [apply joined_value_error | reflexivity].
  - exact Hclass.
  - unfold header_guard_name.
    rewrite bind_value_error; [exact Hclass | reflexivity].
Qed.

Lemma list_remove_length (x : string) (l : list string) :
  List.length (list_remove x l) <= List.length l.
Proof.
  induction l as [|y l IH]; simpl; [lia|].
  destruct (y =? x); simpl; lia.
Qed.

(** The loop over [string_parts] is over once the position is past the
    end: fuel beyond the length of the list changes nothing. *)
Lemma remove_loop_fuel (fuel : nat) :
  forall (idx : nat) (l : list string) (extra : nat),
    List.length l <= fuel + idx ->
    remove_loop (fuel + extra) idx l = remove_loop fuel idx l.
Proof.
  induction fuel as [|fuel IH]; intros idx l extra Hlen.
  - simpl in *. destruct extra as [|extra]; [reflexivity|]. simpl.
    assert (E : nth_error l idx = None) by (apply nth_error_None; lia).
    now rewrite E.
  - simpl. destruct (nth_error l idx) as [elem|]; [|reflexivity].
    destruct ((elem =? "") || (elem =? "intf")); apply IH.
    + pose proof (list_remove_length elem l). lia.
    + lia.
Qed.

Lemma list_remove_length_lower (x : string) (l : list string) :
  List.length l <= S (List.length (list_remove x l)).
Proof.
  induction l as [|y l IH]; simpl; [lia|].
  destruct (y =? x); simpl; lia.
Qed.

Lemma remove_loop_not_nil (fuel : nat) :
  forall (idx : nat) (l : list string),
    (idx = 0 -> 2 <= List.length l) ->
    1 <= List.length l ->
    1 <= List.length (remove_loop fuel idx l).
Proof.
  induction fuel as [|fuel IH]; intros idx l H0 H1; simpl; [exact H1|].
  destruct (nth_error l idx) as [elem|] eqn:E; [|exact H1].
  assert (idx < List.length l) by (apply nth_error_Some; rewrite E; discriminate).
  destruct ((elem =? "") || (elem =? "intf")); apply IH; try lia.
  pose proof (list_remove_length_lower elem l).
  destruct idx; [specialize (H0 eq_refl)|]; lia.
Qed.

Lemma contains_lower (d : ascii) (s : string) :
  Py.is_upper d = false ->
  Py.contains (String d "") s = true ->
  Py.contains (String d "") (Py.lower s) = true.
Proof.
  intros Hd. induction s as [|c s IH]; [intros H; discriminate H|].
  cbn [Py.contains Py.lower Py.map_chars prefix].
  destruct (ascii_dec d c) as [<-|Hne].
  - intros _. unfold Py.lower_char. rewrite Hd.
    destruct (ascii_dec d d) as [_|Hdd]; [|now elim Hdd].
    match goal with
    | |- prefix "" ?x || _ = true => destruct x; reflexivity
    end.
  - cbn [orb]. intros H. apply orb_true_iff. right. exact (IH H).
Qed.

Lemma split_two_pieces (sep : string) (s : string) :
  sep <> "" ->
  Py.contains sep s = true ->
  forall cur, 2 <= List.length (Py.split_from sep 0 cur s).
Proof.
  intros Hsep. induction s as [|c s IH]; intros H cur.
  - destruct sep; [now elim Hsep | discriminate H].
  - cbn [Py.contains] in H. cbn [Py.split_from].
    destruct (prefix sep (String c s)).
    + pose proof (split_from_not_nil sep s (String.length sep - 1) "") as Hnil.
      destruct (Py.split_from sep (String.length sep - 1) "" s);
        [now elim Hnil | simpl; lia].
    + apply IH. exact H.
Qed.

Lemma split_on_first_delimiter_length (s : string) :
  split_on_first_delimiter delimiters s = []
  \/ 2 <= List.length (split_on_first_delimiter delimiters s).
Proof.
  unfold delimiters, KEBAB, SNAKE, SPACE. cbn [split_on_first_delimiter].
  destruct (Py.contains "-" s) eqn:E1;
    [right; apply split_two_pieces;
     [discriminate | apply contains_lower; [reflexivity | exact E1]]|].
  destruct (Py.contains "_" s) eqn:E2;
    [right; apply split_two_pieces;
     [discriminate | apply contains_lower; [reflexivity | exact E2]]|].
  destruct (Py.contains " " s) eqn:E3;
    [right; apply split_two_pieces;
     [discriminate | apply contains_lower; [reflexivity | exact E3]]|].
  left. reflexivity.
Qed.

(** The part of C5 that holds: the list returned has an element. *)
Lemma string_parts_not_nil (s : string) (parts : list string) :
  _string_parts s = Ok parts -> parts <> [].
Proof.
  unfold _string_parts.
  pose proof (split_on_first_delimiter_length s) as Hlen.
  remember (split_on_first_delimiter delimiters s) as pieces eqn:Epieces.
  clear Epieces. destruct Hlen as [->|Hlen].
  - intros H; discriminate H.
  - destruct (Nat.eqb_spec (List.length pieces) 0) as [E0|E0]; [lia|].
    intros H. injection H as <-. intros Hnil.
    pose proof (remove_loop_not_nil (List.length pieces) 0 pieces
                  (fun _ => Hlen) ltac:(lia)) as Hn.
    rewrite Hnil in Hn. simpl in Hn. lia.
Qed.

(** C5, on the code: two removable segments in a row.  After the first
    is removed the iterator has moved on, and the second is never looked
    at: the marker word of [_intf_foo] and an empty segment of [__foo]
    stay in the list. *)
Theorem string_parts_keeps_second_of_two :
  _string_parts "_intf_foo" = Ok ["intf"; "foo"]
  /\ _string_parts "__foo" = Ok [""; "foo"]
  /\ _snake_case "foo_intf_" = Ok "foo_".
Proof. repeat split; reflexivity. Qed.

(** Isolated removable segments are all discarded. *)
Example string_parts_isolated :
  _string_parts "_foo_intf" = Ok ["foo"]
  /\ _string_parts "Intf-Foo-Bar" = Ok ["foo"; "bar"]
  /\ _string_parts "foo__bar" = Ok ["foo"; "bar"].
Proof. repeat split; reflexivity. Qed.

End Identifiers.

(** ** MockGenerator._get_result_type *)

Section ResultType.

Import MockGenerator.

Lemma concat_cons (x : string) (l : list string) :
  String.concat "" (x :: l) = x ++ String.concat "" l.
Proof.
  destruct l as [|y l]; simpl; [now rewrite append_empty_r | reflexivity].
Qed.

Lemma concat_app (l1 l2 : list string) :
  String.concat "" (l1 ++ l2)%list = String.concat "" l1 ++ String.concat "" l2.
Proof.
  induction l1 as [|x l1 IH].
  - reflexivity.
  - change ((x :: l1) ++ l2)%list with (x :: (l1 ++ l2))%list.
    now rewrite !concat_cons, IH, append_assoc.
Qed.

Lemma result_type_loop_pieces (name : string) (tokens : list string) :
  forall acc : list string,
    String.concat "" (result_type_loop tokens name acc)
    = String.concat "" acc
        ++ String.concat "" (map Spec.piece (Spec.before_name tokens name)).
Proof.
  induction tokens as [|token rest IH]; intros acc.
  - simpl. now rewrite append_empty_r.
  - cbn [result_type_loop Spec.before_name].
    destruct (Py.mem token [name; "operator"]).
    + simpl. now rewrite append_empty_r.
    + rewrite IH. cbn [map]. rewrite concat_cons. unfold Spec.piece, Spec.kept.
      destruct (Py.mem token ["virtual"; "inline"; "volatile"]),
        (Py.mem token ["const"; "volatile"]); cbn [negb];
        rewrite ?concat_app, ?append_assoc; simpl String.concat;
        rewrite ?append_empty_r; reflexivity.
Qed.

(** C6, as the code has it: the result type is the concatenation, in
    token order, of what each token before the method's spelling (or
    before [operator], whichever comes first) contributes: its spelling
    unless it is [virtual], [inline] or [volatile], followed by one space
    when it is [const] or [volatile].  A [volatile] is dropped and its
    space stays. *)
Theorem result_type_is_concatenation_of_pieces (tokens : list string) (name : string) :
  _get_result_type tokens name
  = String.concat "" (map Spec.piece (Spec.before_name tokens name)).
Proof.
  unfold _get_result_type, Py.join.
  now rewrite result_type_loop_pieces.
Qed.

(** C6, as it is worded, fails on a [volatile] token: no space follows a
    token that is not kept, yet the program writes one. *)
Lemma result_type_volatile_leaves_space :
  _get_result_type ["volatile"; "int"; "f"] "f" = " int"
  /\ Spec.worded_result_type ["volatile"; "int"; "f"] "f" = "int"
  /\ _get_result_type ["volatile"; "int"; "f"] "f"
     <> Spec.worded_result_type ["volatile"; "int"; "f"] "f".
Proof. repeat split; try reflexivity. intros H; discriminate H. Qed.

Example result_type_const_reference :
  _get_result_type ["virtual"; "const"; "std"; "::"; "string"; "&"; "get"; "("; ")"] "get"
  = "const std::string&".
Proof. reflexivity. Qed.

End ResultType.

(** ** MockGenerator.generate_data *)

Section GenerateData.

Import MockGenerator.

(** C8: when the walk has collected no qualified name, [generate_data]
    raises the [RuntimeError] and returns no mapping.  Otherwise every
    field of the mapping it returns is made from the first key of the
    dictionary, in insertion order, and from the record under it (and
    from the output directory); the later entries and the rest of the
    tree have no part in it: two runs whose dictionaries begin with the
    same entry, for the same directory, give the same answer. *)
Theorem generate_data_first_interface_only
  (self : MockGenerator.t) (collected : mock_methods_dict) :
  collect self = Ok collected ->
  match collected with
  | [] =>
      generate_data self
      = Raise (RuntimeError "Error: could not process interface methods.")
  | (key, (source, methods)) :: later =>
      (forall r,
          generate_data self = Ok r ->
          StringTransform.gmock_h_file_name (_get_interface key)
          = Ok (mock_file_hpp r)
          /\ StringTransform.gmock_cpp_file_name (_get_interface key)
             = Ok (mock_file_cpp r)
          /\ generated_dir r = path self
          /\ StringTransform.header_guard_name (_get_interface key) = Ok (guard r)
          /\ file r = Py.basename source
          /\ namespaces_begin r = _pretty_namespaces_begin key
          /\ StringTransform.gmock_class_name (_get_interface key)
             = Ok (class_name r)
          /\ class_name r = interface r ++ "_GMOCK"
          /\ template_class_name r
             = _get_templated_class_name (class_name r)
                 (Py.last_item (Py.split "::" key))
          /\ template_interface r = Py.last_item (Py.split "::" key)
          /\ template r = _pretty_template key
          /\ mock_methods r = _pretty_mock_methods methods
          /\ namespaces_end r = _pretty_namespaces_end key)
      /\ (forall self' later',
            collect self' = Ok ((key, (source, methods)) :: later') ->
            path self' = path self ->
            generate_data self' = generate_data self)
  end.
Proof.
  intros H. destruct collected as [|[key [source methods]] later].
  - unfold generate_data. rewrite H. reflexivity.
  - split.
    + intros r Hr. unfold generate_data in Hr. rewrite H in Hr. cbn [bind] in Hr.
      unfold build_replacements in Hr.
      unfold StringTransform.header_guard_name, StringTransform.gmock_class_name,
        StringTransform.gmock_h_file_name, StringTransform.gmock_cpp_file_name,
        StringTransform._snake_case, StringTransform._kebab_case in *.
      destruct (StringTransform._string_parts (_get_interface key)) as [parts|e];
        cbn [bind] in *; [|discriminate Hr].
      injection Hr as <-.
      cbn [class_name interface guard mock_file_hpp mock_file_cpp generated_dir
             file mock_methods template_interface template_class_name template
             namespaces_begin namespaces_end fst snd].
      repeat split.
    + intros self' later' H' Hpath. unfold generate_data. rewrite H, H'.
      cbn [bind]. unfold build_replacements. now rewrite Hpath.
Qed.

Lemma generate_data_first_interface_only_witness :
  collect (mk "" "." Sample.two_interfaces) = Ok Sample.two_collected
  /\ Spec.keys Sample.two_collected = ["a::X_One"; "b::Y_Two"]
  /\ exists r,
       generate_data (mk "" "." Sample.two_interfaces) = Ok r
       /\ file r = Py.basename "include/foo.h"
       /\ template_interface r = Py.last_item (Py.split "::" "a::X_One")
       /\ mock_methods r = _pretty_mock_methods [Sample.bar_method].
Proof.
  split; [reflexivity|]. split; [reflexivity|].
  eexists. split; [reflexivity|].
  pose proof (generate_data_first_interface_only
                (mk "" "." Sample.two_interfaces) Sample.two_collected eq_refl)
    as H.
  unfold Sample.two_collected in H. cbv beta iota in H.
  destruct H as [Hfields _].
  destruct (Hfields _ eq_refl)
    as [_ [_ [_ [_ [Hfile [_ [_ [_ [_ [Hti [_ [Hmm _]]]]]]]]]]]].
  split; [exact Hfile|]. split; [exact Hti | exact Hmm].
Defined.

Example generate_data_no_interface :
  collect (mk "" "." Sample.empty_unit) = Ok []
  /\ generate_data (mk "" "." Sample.empty_unit)
     = Raise (RuntimeError "Error: could not process interface methods.").
Proof. split; reflexivity. Qed.

(** C4, as it is worded, fails at its own input: [IFoo] has no delimiter,
    so that deriving the names raises and no mapping is returned. *)
Lemma generate_data_IFoo_raises :
  generate_data (mk "" "." (Sample.unit_of "IFoo"))
  = Raise (ValueError "Error: Unsupported delimeter")
  /\ ~ (exists r, generate_data (mk "" "." (Sample.unit_of "IFoo")) = Ok r
                  /\ interface r = "I_FOO").
Proof.
  split; [reflexivity|].
  intros [r [H _]]. vm_compute in H. discriminate H.
Qed.

(** C4, as the code has it: with the interface spelled [ns::I_Foo] and the
    one method [void bar(int, std::string)], the mapping has [interface]
    equal to [I_FOO] and [mock_methods] is the single line of a
    two-argument mock whose argument text is [int, std::string], the
    tokens of the parameter list and no synthesized name. *)
Theorem generate_data_I_Foo (path : string) :
  collect (mk "" path (Sample.unit_of "I_Foo"))
  = Ok [("ns::I_Foo", ("include/foo.h", [Sample.bar_method]))]
  /\ exists r,
       generate_data (mk "" path (Sample.unit_of "I_Foo")) = Ok r
       /\ interface r = "I_FOO"
       /\ class_name r = "I_FOO_GMOCK"
       /\ namespaces_begin r = "namespace ns {"
       /\ generated_dir r = path
       /\ mock_methods r = "    MOCK_METHOD2(bar, void(int, std::string));".
Proof.
  split; [reflexivity|].
  eexists. split; [reflexivity|].
  repeat split.
Qed.

End GenerateData.

(** ** MockGenerator._get_arguments_and_num_args *)

Section Arguments.

Import MockGenerator.

Lemma skipn_cons_inv {A : Type} (i : nat) :
  forall (l : list A) (x : A) (rest : list A),
    skipn i l = x :: rest -> nth_error l i = Some x /\ skipn (S i) l = rest.
Proof.
  induction i as [|i IH]; intros l x rest H; destruct l as [|y l];
    simpl in H; try discriminate H.
  - inversion H. split; reflexivity.
  - apply IH in H. exact H.
Qed.

Lemma skipn_nil_inv {A : Type} (i : nat) (l : list A) :
  skipn i l = [] -> nth_error l i = None.
Proof.
  intros H. rewrite <- hd_error_skipn, H. reflexivity.
Qed.

(** The [while] loop ends within the fuel it is given, and computes what
    the recursion on the remaining tokens does. *)
Lemma copy_loop_total (fuel : nat) :
  forall (tokens : list string) (i : nat) (a : string) (f : bool) (c : nat),
    List.length tokens - i < fuel ->
    copy_loop fuel tokens i a f c = Some (Spec.copy_params (skipn i tokens) a f c).
Proof.
  induction fuel as [|fuel IH]; intros tokens i a f c Hfuel; [lia|].
  cbn [copy_loop]. unfold Py.index.
  destruct (skipn i tokens) as [|tok rest] eqn:E.
  - rewrite (skipn_nil_inv _ _ E). reflexivity.
  - destruct (skipn_cons_inv _ _ _ _ E) as [Hi Hrest]. rewrite Hi.
    cbn [Spec.copy_params].
    destruct (tok =? ")"); [reflexivity|].
    replace (i + 1) with (S i) by lia.
    destruct rest as [|next rest'].
    + rewrite (skipn_nil_inv _ _ Hrest). reflexivity.
    + destruct (skipn_cons_inv _ _ _ _ Hrest) as [Hnext _]. rewrite Hnext.
      destruct (copy_step tok next a f c) as [[a' [f' c']]|e]; simpl;
        [|reflexivity].
      rewrite IH, Hrest; [reflexivity|].
      assert (i < List.length tokens)
        by (apply nth_error_Some; rewrite Hi; discriminate).
      lia.
Qed.

(** The [for] loop never runs out of the fuel that
    [_get_arguments_and_num_args] gives it. *)
Lemma scan_loop_total (tokens : list string) (indices : list nat) :
  exists r, scan_loop (S (List.length tokens)) tokens indices = Some r.
Proof.
  induction indices as [|i later IH]; cbn [scan_loop].
  - eauto.
  - destruct (locate tokens i) as [[j [|]]|e]; eauto.
    rewrite copy_loop_total by lia. eauto.
Qed.

Lemma scan_loop_skip (fuel : nat) (tokens : list string) (l1 l2 : list nat) :
  (forall i, In i l1 -> locate tokens i = Ok (i, false)) ->
  scan_loop fuel tokens (l1 ++ l2)%list = scan_loop fuel tokens l2.
Proof.
  induction l1 as [|i l1 IH]; intros H; simpl; [reflexivity|].
  rewrite (H i) by (left; reflexivity).
  apply IH. intros j Hj. apply H. right. exact Hj.
Qed.

Lemma mem_false_In (x : string) (xs : list string) :
  Py.mem x xs = false -> forall y, In y xs -> (y =? x) = false.
Proof.
  induction xs as [|z xs IH]; simpl; intros H y Hy; [contradiction|].
  apply orb_false_iff in H. destruct H as [Hz Hxs].
  destruct Hy as [->|Hy]; [now rewrite String.eqb_sym | now apply IH].
Qed.

(** Before the name: no index inside a prefix free of ["("] starts the
    [while] loop, as long as the token after the prefix is not ["("]. *)
Lemma locate_in_prefix (pre : list string) (head : string) (rest : list string)
  (i : nat) :
  Py.mem "(" pre = false ->
  (head =? "(") = false ->
  1 <= i <= List.length pre ->
  locate (pre ++ head :: rest)%list i = Ok (i, false).
Proof.
  intros Hpre Hhead Hi. unfold locate, Py.index.
  destruct (nth_error pre (i - 1)) as [p|] eqn:Ep;
    [|apply nth_error_None in Ep; lia].
  rewrite nth_error_app1, Ep by lia. cbn [bind].
  assert (Hp : (p =? "(") = false)
    by (apply (mem_false_In _ _ Hpre), (nth_error_In _ _ Ep)).
  assert (Hcur : exists cur, nth_error (pre ++ head :: rest)%list i = Some cur
                             /\ (cur =? "(") = false).
  { destruct (Nat.eq_dec i (List.length pre)) as [->|Hne].
    - exists head. split; [|exact Hhead].
      rewrite nth_error_app2, Nat.sub_diag by lia. reflexivity.
    - destruct (nth_error pre i) as [q|] eqn:Eq;
        [|apply nth_error_None in Eq; lia].
      exists q. split.
      + rewrite nth_error_app1 by lia. exact Eq.
      + apply (mem_false_In _ _ Hpre), (nth_error_In _ _ Eq). }
  destruct Hcur as [cur [Ecur Hcur]].
  destruct (p =? "operator"); cbn [bind].
  - rewrite Ecur. cbn [bind]. rewrite Hcur. cbn [bind].
    rewrite nth_error_app1, Ep by lia. cbn [bind]. now rewrite Hp.
  - rewrite nth_error_app1, Ep by lia. cbn [bind]. now rewrite Hp.
Qed.

Lemma get_arguments_finish (tokens : list string) (r : result (string * nat)) :
  scan_loop (S (List.length tokens)) tokens (seq 1 (List.length tokens - 1)) = Some r ->
  _get_arguments_and_num_args tokens = Spec.finish r.
Proof.
  intros H. unfold _get_arguments_and_num_args. rewrite H.
  destruct r as [[a c]|e]; reflexivity.
Qed.

(** The arguments of an ordinary method: the parameter list that follows
    [name (]. *)
Lemma arguments_of_ordinary_method (pre : list string) (name : string)
  (rest : list string) :
  Py.mem "(" pre = false ->
  (name =? "(") = false ->
  (name =? "operator") = false ->
  rest <> [] ->
  _get_arguments_and_num_args (pre ++ [name; "("] ++ rest)%list
  = Spec.finish (Spec.copy_params rest "" false 0).
Proof.
  intros Hpre Hname Hop Hrest. apply get_arguments_finish.
  set (tokens := (pre ++ [name; "("] ++ rest)%list).
  set (n := List.length pre).
  assert (Hlen : List.length tokens = n + 2 + List.length rest).
  { unfold tokens, n. rewrite !length_app. simpl. lia. }
  assert (Hrest' : 1 <= List.length rest).
  { destruct rest; [congruence | simpl; lia]. }
  replace (List.length tokens - 1) with (n + (2 + (List.length rest - 1))) by lia.
  rewrite seq_app, scan_loop_skip.
  - cbn [seq scan_loop Nat.add].
    assert (T0 : nth_error tokens n = Some name)
      by (unfold tokens, n; now rewrite nth_error_app2, Nat.sub_diag by lia).
    assert (T1 : nth_error tokens (S n) = Some "(").
    { unfold tokens, n. rewrite nth_error_app2 by lia.
      now replace (S (List.length pre) - List.length pre) with 1 by lia. }
    assert (E1 : locate tokens (S n) = Ok (S n, false)).
    { unfold locate, Py.index.
      replace (S n - 1) with n by lia.
      rewrite T0. cbn [bind]. rewrite Hop. cbn [bind].
      replace (S n - 1) with n by lia.
      rewrite T0. cbn [bind]. now rewrite Hname. }
    assert (E2 : locate tokens (S (S n)) = Ok (S (S n), true)).
    { unfold locate, Py.index.
      replace (S (S n) - 1) with (S n) by lia.
      rewrite T1. cbn [bind].
      replace ("(" =? "operator") with false by reflexivity. cbn [bind].
      replace (S (S n) - 1) with (S n) by lia.
      rewrite T1. reflexivity. }
    rewrite E1, E2, copy_loop_total by lia.
    f_equal. f_equal. unfold tokens.
    replace (S (S n)) with (List.length (pre ++ [name; "("])%list)
      by (rewrite length_app; simpl; unfold n; lia).
    rewrite app_assoc, skipn_app, skipn_all, Nat.sub_diag. reflexivity.
  - intros i Hi. apply in_seq in Hi. unfold tokens.
    apply locate_in_prefix; try assumption. unfold n in Hi. lia.
Qed.

(** The arguments of the call operator: the parameter list that follows
    [operator ( ) (]. *)
Lemma arguments_of_call_operator (pre rest : list string) :
  Py.mem "(" pre = false ->
  _get_arguments_and_num_args (pre ++ ["operator"; "("; ")"; "("] ++ rest)%list
  = Spec.finish (Spec.copy_params rest "" false 0).
Proof.
  intros Hpre. apply get_arguments_finish.
  set (tokens := (pre ++ ["operator"; "("; ")"; "("] ++ rest)%list).
  set (n := List.length pre).
  assert (Hlen : List.length tokens = n + 4 + List.length rest).
  { unfold tokens, n. rewrite !length_app. simpl. lia. }
  replace (List.length tokens - 1) with (n + (1 + (2 + List.length rest))) by lia.
  rewrite seq_app, scan_loop_skip.
  - cbn [seq scan_loop Nat.add].
    assert (T0 : nth_error tokens n = Some "operator")
      by (unfold tokens, n; now rewrite nth_error_app2, Nat.sub_diag by lia).
    assert (T1 : nth_error tokens (S n) = Some "(").
    { unfold tokens, n. rewrite nth_error_app2 by lia.
      now replace (S (List.length pre) - List.length pre) with 1 by lia. }
    assert (T2 : nth_error tokens (S n + 1) = Some ")").
    { unfold tokens, n. rewrite nth_error_app2 by lia.
      now replace (S (List.length pre) + 1 - List.length pre) with 2 by lia. }
    assert (T3 : nth_error tokens (S n + 3 - 1) = Some "(").
    { unfold tokens, n. rewrite nth_error_app2 by lia.
      now replace (S (List.length pre) + 3 - 1 - List.length pre) with 3 by lia. }
    assert (E1 : locate tokens (S n) = Ok (S n + 3, true)).
    { unfold locate, Py.index.
      replace (S n - 1) with n by lia.
      rewrite T0. cbn [bind]. rewrite String.eqb_refl.
      rewrite T1. cbn [bind]. rewrite String.eqb_refl.
      rewrite T2. cbn [bind]. rewrite String.eqb_refl. cbn [bind].
      rewrite T3. reflexivity. }
    rewrite E1, copy_loop_total by lia.
    f_equal. f_equal. unfold tokens.
    replace (S n + 3)
      with (List.length (pre ++ ["operator"; "("; ")"; "("])%list)
      by (rewrite length_app; simpl; unfold n; lia).
    rewrite app_assoc, skipn_app, skipn_all, Nat.sub_diag. reflexivity.
  - intros i Hi. apply in_seq in Hi. unfold tokens.
    apply locate_in_prefix; try assumption; [reflexivity|]. unfold n in Hi. lia.
Qed.

(** C3: when [operator ( )] stands right before the opener of the
    parameter list (and no ["("] comes before it), the empty pair is passed
    over: the argument text and count are those of the parameter list that
    follows, the same as for an ordinary method [name] with that parameter
    list. *)
Theorem call_operator_marker_is_skipped (pre rest : list string) :
  Py.mem "(" pre = false ->
  _get_arguments_and_num_args (pre ++ ["operator"; "("; ")"; "("] ++ rest)%list
  = Spec.finish (Spec.copy_params rest "" false 0)
  /\ (forall name : string,
        (name =? "(") = false ->
        (name =? "operator") = false ->
        rest <> [] ->
        _get_arguments_and_num_args (pre ++ ["operator"; "("; ")"; "("] ++ rest)%list
        = _get_arguments_and_num_args (pre ++ [name; "("] ++ rest)%list).
Proof.
  intros Hpre. split.
  - now apply arguments_of_call_operator.
  - intros name Hname Hop Hrest.
    now rewrite arguments_of_call_operator, arguments_of_ordinary_method.
Qed.

Lemma call_operator_marker_is_skipped_witness :
  Py.mem "(" ["void"] = false
  /\ _get_arguments_and_num_args Sample.call_operator_tokens = Ok (1, "int")
  /\ _get_arguments_and_num_args Sample.call_operator_tokens
     = _get_arguments_and_num_args ["void"; "f"; "("; "int"; ")"].
Proof.
  split; [reflexivity|].
  destruct (call_operator_marker_is_skipped ["void"] ["int"; ")"] eq_refl)
    as [Hargs Hsame].
  split; [exact Hargs|].
  apply (Hsame "f"); [reflexivity | reflexivity | discriminate].
Defined.

(** C3, as it is worded, fails when a ["("] comes before [operator]:
    the first ["("] of the stream is taken for the opener, here the one
    inside the result type, and the parameter list [(int)] of the call
    operator, which alone would give count 1 and text [int], is never
    reached. *)
Lemma call_operator_after_parenthesised_type :
  _get_arguments_and_num_args Sample.returning_function_tokens = Ok (0, "")
  /\ Sample.returning_function_tokens
     = (["std"; "::"; "function"; "<"; "void"; "("; ")"; ">"]
          ++ ["operator"; "("; ")"; "("] ++ ["int"; ")"])%list
  /\ Spec.finish (Spec.copy_params ["int"; ")"] "" false 0) = Ok (1, "int")
  /\ _get_arguments_and_num_args Sample.returning_function_tokens
     <> Spec.finish (Spec.copy_params ["int"; ")"] "" false 0).
Proof.
  repeat split; try reflexivity. intros H. discriminate H.
Qed.

Example call_operator_without_parameters :
  _get_arguments_and_num_args ["bool"; "operator"; "("; ")"; "("; ")"; "const"]
  = Ok (0, "").
Proof. reflexivity. Qed.

(** C1, on the code: the nesting is tracked by a flag, which the first
    closing [>] clears whatever the number of brackets still open.  The
    comma of [map<vector<int>, int>] lies inside the outer brackets, so
    that the parameter list has no top-level comma and one argument; the
    program counts the comma and returns two.  With [map<int, int>] the
    count is one. *)
Theorem nested_template_comma_is_counted :
  _get_arguments_and_num_args Sample.nested_tokens
  = Ok (2, "map<vector<int>, int>")
  /\ Spec.top_level_commas Sample.nested_params = 0
  /\ _get_arguments_and_num_args Sample.map_tokens = Ok (1, "map<int, int>")
  /\ Spec.top_level_commas Sample.map_params = 0.
Proof. repeat split; reflexivity. Qed.

(** The count is zero exactly when no argument text was copied. *)
Lemma num_args_zero_iff_empty (tokens : list string) (n : nat) (text : string) :
  _get_arguments_and_num_args tokens = Ok (n, text) ->
  (n = 0 <-> text = "").
Proof.
  unfold _get_arguments_and_num_args.
  destruct (scan_loop _ _ _) as [[[a c]|e]|]; try discriminate.
  cbn [bind]. intros H. inversion H; subst.
  destruct text; simpl; split; intros E; try reflexivity; try discriminate; lia.
Qed.

End Arguments.

(** ** MockGenerator._get_mock_methods *)

Section Traversal.

Import MockGenerator.

(** Induction on the declaration tree. *)
Lemma Cursor_tree_ind (P : Cursor -> Prop) :
  (forall kind name spelling tokens is_const file children,
      Forall P children ->
      P (mkCursor kind name spelling tokens is_const file children)) ->
  forall node, P node.
Proof.
  intros step. fix IH 1. intros [kind name spelling tokens is_const file children].
  apply step. induction children as [|c cs IHcs]; constructor.
  - apply IH.
  - exact IHcs.
Qed.

(** [_get_mock_methods], one node at a time. *)
Lemma get_mock_methods_node restriction kind name spelling tokens is_const file
  children mm expr :
  _get_mock_methods restriction
    (mkCursor kind name spelling tokens is_const file children) mm expr
  = match kind with
    | CXX_METHOD =>
        '(num_args, args_with_types) <- _get_arguments_and_num_args tokens ;;
        Ok (setdefault_append mm expr file
              (MockMethod.mk (_get_result_type tokens spelling) spelling is_const
                 (_is_template_class expr) num_args args_with_types
                 (Py.slice_to_last (String.length spelling + 1) name)))
    | OTHER_KIND => visit_all restriction children mm expr
    | _ =>
        if Py.startswith (extend expr name) restriction
        then visit_all restriction children mm (extend expr name)
        else Ok mm
    end.
Proof.
  assert (Hvisit : forall e cs m,
             (fix visit (cs : list Cursor) (mock_methods : mock_methods_dict)
                : result mock_methods_dict :=
                match cs with
                | [] => Ok mock_methods
                | c :: cs' =>
                    mock_methods <- _get_mock_methods restriction c mock_methods e ;;
                    visit cs' mock_methods
                end) cs m
             = visit_all restriction cs m e).
  { intros e cs. induction cs as [|c cs IHcs]; intros m; [reflexivity|].
    cbn [visit_all]. destruct (_get_mock_methods restriction c m e); cbn [bind];
      [apply IHcs | reflexivity]. }
  destruct kind; cbn [_get_mock_methods]; rewrite ?Hvisit; reflexivity.
Qed.

Lemma keys_setdefault_append (mm : mock_methods_dict) (key file : string)
  (m : MockMethod.t) (k : string) :
  In k (Spec.keys (setdefault_append mm key file m)) ->
  In k (Spec.keys mm) \/ k = key.
Proof.
  induction mm as [|[k0 [f0 ms]] mm IH]; simpl.
  - intros [H|[]]. right. now symmetry.
  - destruct (k0 =? key); simpl; intros [H|H]; auto.
    destruct (IH H); auto.
Qed.

(** A key added below [node] is the qualified name [expr] it is met
    under, or a name that starts with the restriction. *)
Lemma added_keys (restriction : string) (node : Cursor) :
  forall mm expr mm',
    _get_mock_methods restriction node mm expr = Ok mm' ->
    forall k, In k (Spec.keys mm') ->
              In k (Spec.keys mm) \/ k = expr
              \/ Py.startswith k restriction = true.
Proof.
  induction node as [kind name spelling tokens is_const file children IHc]
    using Cursor_tree_ind.
  assert (Hall : forall e mm mm',
             visit_all restriction children mm e = Ok mm' ->
             forall k, In k (Spec.keys mm') ->
                       In k (Spec.keys mm) \/ k = e
                       \/ Py.startswith k restriction = true).
  { intros e. induction IHc as [|c cs Hc _ IHcs]; intros mm mm' H k Hk.
    - inversion H; subst. auto.
    - cbn [visit_all] in H. apply bind_ok in H. destruct H as [mm1 [H1 H2]].
      destruct (IHcs _ _ H2 k Hk) as [Hin|Hrest]; [|auto].
      apply (Hc _ _ _ H1 k Hin). }
  intros mm expr mm' H k Hk. rewrite get_mock_methods_node in H.
  assert (Hcontainer :
           (if Py.startswith (extend expr name) restriction
            then visit_all restriction children mm (extend expr name)
            else Ok mm) = Ok mm' ->
           In k (Spec.keys mm) \/ k = expr \/ Py.startswith k restriction = true).
  { destruct (Py.startswith (extend expr name) restriction) eqn:E; intros H'.
    - destruct (Hall _ _ _ H' k Hk) as [Hin|[->|Hr]]; auto.
    - inversion H'; subst. auto. }
  destruct kind; auto.
  - apply bind_ok in H. destruct H as [[n a] [_ H]]. inversion H; subst.
    apply keys_setdefault_append in Hk. tauto.
  - apply (Hall _ _ _ H k Hk).
Qed.

(** C2, as the code has it: a container is recursed into exactly when
    the restriction is a prefix of (or equal to) its extended qualified
    name; otherwise the walk leaves the dictionary as it was, so that
    every key added below a container starts with the restriction; the
    empty restriction is a prefix of every name. *)
Theorem container_traversed_iff_restriction_is_prefix
  (restriction : string) (kind : CursorKind) (name spelling : string)
  (tokens : list string) (is_const : bool) (file : string)
  (children : list Cursor) (mm : mock_methods_dict) (expr : string) :
  is_container kind = true ->
  _get_mock_methods restriction
    (mkCursor kind name spelling tokens is_const file children) mm expr
  = (if Py.startswith (extend expr name) restriction
     then visit_all restriction children mm (extend expr name)
     else Ok mm)
  /\ (forall mm',
        _get_mock_methods restriction
          (mkCursor kind name spelling tokens is_const file children) mm expr
        = Ok mm' ->
        forall k, In k (Spec.keys mm') ->
                  In k (Spec.keys mm) \/ Py.startswith k restriction = true)
  /\ Py.startswith (extend expr name) "" = true.
Proof.
  intros Hkind.
  assert (Heq : _get_mock_methods restriction
                  (mkCursor kind name spelling tokens is_const file children) mm expr
                = (if Py.startswith (extend expr name) restriction
                   then visit_all restriction children mm (extend expr name)
                   else Ok mm)).
  { rewrite get_mock_methods_node. destruct kind; try discriminate Hkind; reflexivity. }
  split; [exact Heq|].
  split; [|unfold Py.startswith; destruct (extend expr name); reflexivity].
  intros mm' H k Hk. rewrite Heq in H.
  destruct (Py.startswith (extend expr name) restriction) eqn:E.
  - assert (H' : _get_mock_methods restriction
                   (mkCursor OTHER_KIND name spelling tokens is_const file children)
                   mm (extend expr name) = Ok mm')
      by (rewrite get_mock_methods_node; exact H).
    destruct (added_keys _ _ _ _ _ H' k Hk) as [Hin|[->|Hr]]; auto.
  - inversion H; subst. auto.
Qed.

Lemma container_traversed_iff_restriction_is_prefix_witness :
  Py.startswith (extend "" "ns") "ns::I_Foo" = false
  /\ _get_mock_methods "ns::I_Foo" (Sample.ns_interface "I_Foo") [] "" = Ok []
  /\ _get_mock_methods "" (Sample.ns_interface "I_Foo") [] ""
     = Ok [("ns::I_Foo", ("include/foo.h", [Sample.bar_method]))].
Proof.
  split; [reflexivity|].
  split.
  - exact (proj1 (container_traversed_iff_restriction_is_prefix
                    "ns::I_Foo" NAMESPACE "ns" "ns" [] false ""
                    [mkCursor CLASS_DECL "I_Foo" "I_Foo" [] false "" [Sample.bar]]
                    [] "" eq_refl)).
  - reflexivity.
Defined.

(** C2, as it is worded, fails: [ns] is not a prefix of the restriction
    [n], yet the namespace is walked and the method below it collected. *)
Lemma container_traversed_though_not_prefix_of_restriction :
  Py.startswith "n" (extend "" "ns") = false
  /\ _get_mock_methods "n" (Sample.ns_interface "I_Foo") [] ""
     = Ok [("ns::I_Foo", ("include/foo.h", [Sample.bar_method]))].
Proof. split; reflexivity. Qed.

(** An anonymous container still adds the separator. *)
Example extend_anonymous :
  extend "" "" = "::" /\ extend "ns" "" = "ns::" /\ extend "" "ns" = "ns"
  /\ extend "ns" "I_Foo" = "ns::I_Foo".
Proof. repeat split; reflexivity. Qed.

End Traversal.

(** * Further properties *)

(** ** Characters, [split] and [join] *)

Section Splitting.

Import Notions.

Lemma prefix_empty (s : string) : prefix "" s = true.
Proof. destruct s; reflexivity. Qed.

Lemma prefix_app (s r : string) : prefix s (s ++ r) = true.
Proof.
  induction s as [|c s IH]; simpl; [apply prefix_empty|].
  destruct (ascii_dec c c) as [_|H]; [exact IH | now elim H].
Qed.

Lemma prefix_head (c x : ascii) (sep s : string) :
  Ascii.eqb x c = false -> prefix (String c sep) (String x s) = false.
Proof.
  intros H. simpl. destruct (ascii_dec c x) as [->|_]; [|reflexivity].
  now rewrite Ascii.eqb_refl in H.
Qed.

Lemma contains_char (c : ascii) (s : string) :
  Py.contains (String c "") s = has_char c s.
Proof.
  induction s as [|x s IH]; [reflexivity|].
  cbn [Py.contains has_char]. rewrite IH. f_equal.
  simpl. destruct (ascii_dec c x) as [->|Hne].
  - now rewrite prefix_empty, Ascii.eqb_refl.
  - symmetry. apply Ascii.eqb_neq. congruence.
Qed.

Lemma has_char_app (c : ascii) (a b : string) :
  has_char c (a ++ b) = has_char c a || has_char c b.
Proof.
  induction a as [|x a IH]; simpl; [reflexivity | now rewrite IH, orb_assoc].
Qed.

Lemma all_chars_app (p : ascii -> bool) (a b : string) :
  all_chars p (a ++ b) = all_chars p a && all_chars p b.
Proof.
  induction a as [|x a IH]; simpl; [reflexivity | now rewrite IH, andb_assoc].
Qed.

Lemma all_chars_weaken (p q : ascii -> bool) (s : string) :
  (forall c, p c = true -> q c = true) ->
  all_chars p s = true -> all_chars q s = true.
Proof.
  intros Hpq. induction s as [|x s IH]; simpl; [reflexivity|].
  intros H. apply andb_true_iff in H. destruct H as [Hx Hs].
  now rewrite (Hpq _ Hx), IH.
Qed.

Lemma all_chars_has_char (p : ascii -> bool) (c : ascii) (s : string) :
  p c = false -> all_chars p s = true -> has_char c s = false.
Proof.
  intros Hc. induction s as [|x s IH]; simpl; [reflexivity|].
  intros H. apply andb_true_iff in H. destruct H as [Hx Hs].
  rewrite (IH Hs), orb_false_r. apply Ascii.eqb_neq. congruence.
Qed.

Lemma concat_two (sep x y : string) (l : list string) :
  String.concat sep (x :: y :: l) = x ++ sep ++ String.concat sep (y :: l).
Proof. reflexivity. Qed.

Lemma all_chars_join (p : ascii -> bool) (sep : string) (l : list string) :
  all_chars p sep = true ->
  (forall x, In x l -> all_chars p x = true) ->
  all_chars p (Py.join sep l) = true.
Proof.
  intros Hsep. unfold Py.join.
  induction l as [|x l IH]; intros H; [reflexivity|].
  destruct l as [|y l]; [apply H; now left|].
  rewrite concat_two, !all_chars_app, Hsep, (H x) by now left.
  rewrite IH; [reflexivity|]. intros z Hz. apply H. now right.
Qed.

Lemma has_char_join (c : ascii) (sep : string) (l : list string) :
  has_char c sep = false ->
  (forall x, In x l -> has_char c x = false) ->
  has_char c (Py.join sep l) = false.
Proof.
  intros Hsep. unfold Py.join.
  induction l as [|x l IH]; intros H; [reflexivity|].
  destruct l as [|y l]; [apply H; now left|].
  rewrite concat_two, !has_char_app, Hsep, (H x) by now left.
  rewrite IH; [reflexivity|]. intros z Hz. apply H. now right.
Qed.

Lemma lower_char_not_upper (c : ascii) : Py.is_upper (Py.lower_char c) = false.
Proof. destruct c as [[] [] [] [] [] [] [] []]; reflexivity. Qed.

Lemma upper_char_not_lower (c : ascii) : Py.is_lower (Py.upper_char c) = false.
Proof. destruct c as [[] [] [] [] [] [] [] []]; reflexivity. Qed.

Lemma lower_not_upper (s : string) : all_chars not_upper (Py.lower s) = true.
Proof.
  induction s as [|c s IH]; [reflexivity|].
  cbn [Py.lower Py.map_chars all_chars]. unfold not_upper at 1.
  rewrite lower_char_not_upper. exact IH.
Qed.

Lemma upper_not_lower (s : string) : all_chars not_lower (Py.upper s) = true.
Proof.
  induction s as [|c s IH]; [reflexivity|].
  cbn [Py.upper Py.map_chars all_chars]. unfold not_lower at 1.
  rewrite upper_char_not_lower. exact IH.
Qed.

Lemma lower_fixed (s : string) :
  all_chars not_upper s = true -> Py.lower s = s.
Proof.
  induction s as [|c s IH]; [reflexivity|].
  cbn [all_chars]. intros H. apply andb_true_iff in H. destruct H as [Hc Hs].
  unfold Py.lower in *. cbn [Py.map_chars]. rewrite (IH Hs).
  unfold Py.lower_char. unfold not_upper in Hc.
  now destruct (Py.is_upper c).
Qed.

(** The pieces of [split]: made of the characters read. *)
Lemma split_from_all_chars (p : ascii -> bool) (sep : string) (s : string) :
  forall (skip : nat) (cur piece : string),
    all_chars p cur = true -> all_chars p s = true ->
    In piece (Py.split_from sep skip cur s) -> all_chars p piece = true.
Proof.
  induction s as [|c s IH]; intros skip cur piece Hcur Hs Hin.
  - destruct Hin as [<-|[]]. exact Hcur.
  - cbn [all_chars] in Hs. apply andb_true_iff in Hs. destruct Hs as [Hc Hs].
    cbn [Py.split_from] in Hin. destruct skip as [|k].
    + destruct (prefix sep (String c s)).
      * destruct Hin as [<-|Hin]; [exact Hcur|].
        apply (IH (String.length sep - 1) "" piece);
          [reflexivity | exact Hs | exact Hin].
      * apply (IH 0 (cur ++ String c "") piece); [|exact Hs | exact Hin].
        rewrite all_chars_app, Hcur. simpl. now rewrite Hc.
    + now apply (IH _ _ _ Hcur Hs Hin).
Qed.

(** The pieces of [split] on a one-character separator are free of it. *)
Lemma split_from_free (d : ascii) (s : string) :
  forall (cur piece : string),
    has_char d cur = false ->
    In piece (Py.split_from (String d "") 0 cur s) -> has_char d piece = false.
Proof.
  induction s as [|c s IH]; intros cur piece Hcur Hin.
  - destruct Hin as [<-|[]]. exact Hcur.
  - cbn [Py.split_from] in Hin.
    destruct (prefix (String d "") (String c s)) eqn:E.
    + destruct Hin as [<-|Hin]; [exact Hcur|].
      now apply (IH "" piece).
    + apply (IH (cur ++ String c "") piece); [|exact Hin].
      rewrite has_char_app, Hcur. simpl. rewrite orb_false_r.
      destruct (Ascii.eqb c d) eqn:Ecd; [|reflexivity].
      apply Ascii.eqb_eq in Ecd. subst c. simpl in E.
      destruct (ascii_dec d d) as [_|H]; [|now elim H].
      now rewrite prefix_empty in E.
Qed.

Lemma split_from_segment (c0 : ascii) (sep' : string) (x : string) :
  forall (rest cur : string),
    has_char c0 x = false ->
    Py.split_from (String c0 sep') 0 cur (x ++ rest)
    = Py.split_from (String c0 sep') 0 (cur ++ x) rest.
Proof.
  induction x as [|a x IH]; intros rest cur H.
  - now rewrite append_empty_r.
  - cbn [has_char] in H. apply orb_false_iff in H. destruct H as [Ha Hx].
    change (String a x ++ rest) with (String a (x ++ rest)).
    cbn [Py.split_from]. rewrite (prefix_head _ _ _ _ Ha).
    rewrite IH by exact Hx. now rewrite append_assoc.
Qed.

Lemma split_from_skip (sep : string) (t : string) :
  forall (rest cur : string),
    Py.split_from sep (String.length t) cur (t ++ rest)
    = Py.split_from sep 0 cur rest.
Proof.
  induction t as [|a t IH]; intros rest cur; [reflexivity|].
  cbn [String.length]. change (String a t ++ rest) with (String a (t ++ rest)).
  cbn [Py.split_from]. apply IH.
Qed.

Lemma split_from_separator (c0 : ascii) (sep' : string) (rest cur : string) :
  Py.split_from (String c0 sep') 0 cur (String c0 sep' ++ rest)
  = cur :: Py.split_from (String c0 sep') 0 "" rest.
Proof.
  change (String c0 sep' ++ rest) with (String c0 (sep' ++ rest)).
  cbn [Py.split_from].
  change (String c0 (sep' ++ rest)) with (String c0 sep' ++ rest).
  rewrite prefix_app.
  replace (String.length (String c0 sep') - 1) with (String.length sep')
    by (cbn [String.length]; lia).
  now rewrite split_from_skip.
Qed.

(** [split] undoes [join] when no segment has the first character of the
    separator. *)
Lemma split_join (c0 : ascii) (sep' : string) (l : list string) :
  forall (x cur : string),
    (forall y, In y (x :: l) -> has_char c0 y = false) ->
    Py.split_from (String c0 sep') 0 cur (Py.join (String c0 sep') (x :: l))
    = (cur ++ x) :: l.
Proof.
  unfold Py.join.
  induction l as [|y l IH]; intros x cur H.
  - cbn [String.concat]. rewrite <- (append_empty_r x) at 1.
    rewrite split_from_segment by (apply H; now left). reflexivity.
  - rewrite concat_two, split_from_segment by (apply H; now left).
    rewrite split_from_separator. f_equal.
    rewrite IH; [reflexivity|]. intros z Hz. apply H. now right.
Qed.

Lemma contains_after (sep x r : string) :
  Py.contains sep (x ++ sep ++ r) = true.
Proof.
  induction x as [|a x IH].
  - destruct sep as [|c sep]; [destruct r; reflexivity|].
    change ("" ++ String c sep ++ r) with (String c sep ++ r).
    change (String c sep ++ r) with (String c (sep ++ r)) at 1.
    cbn [Py.contains].
    change (String c (sep ++ r)) with (String c sep ++ r).
    now rewrite prefix_app.
  - change (String a x ++ sep ++ r) with (String a (x ++ sep ++ r)).
    cbn [Py.contains]. rewrite IH. apply orb_true_r.
Qed.

Lemma split_without_separator (sep : string) (s : string) :
  Py.contains sep s = false ->
  forall cur, Py.split_from sep 0 cur s = [cur ++ s].
Proof.
  induction s as [|c s IH]; intros H cur.
  - now rewrite append_empty_r.
  - cbn [Py.contains] in H. apply orb_false_iff in H. destruct H as [Hp Hs].
    cbn [Py.split_from]. rewrite Hp, (IH Hs). now rewrite append_assoc.
Qed.

End Splitting.

(** ** StringTransform: the shape of the word segments and of the names *)

Section Names.

Import StringTransform Notions.

Lemma list_remove_In (x p : string) (l : list string) :
  In p (list_remove x l) -> In p l.
Proof.
  induction l as [|y l IH]; simpl; [tauto|].
  destruct (y =? x); simpl; tauto.
Qed.

Lemma remove_loop_In (fuel : nat) :
  forall (idx : nat) (l : list string) (p : string),
    In p (remove_loop fuel idx l) -> In p l.
Proof.
  induction fuel as [|fuel IH]; intros idx l p H; simpl in H; [exact H|].
  destruct (nth_error l idx) as [elem|]; [|exact H].
  destruct ((elem =? "") || (elem =? "intf")).
  - apply (list_remove_In elem), (IH _ _ _ H).
  - apply (IH _ _ _ H).
Qed.

Lemma remove_loop_fixed (fuel : nat) :
  forall (idx : nat) (l : list string),
    (forall x, In x l -> (x =? "") || (x =? "intf") = false) ->
    remove_loop fuel idx l = l.
Proof.
  induction fuel as [|fuel IH]; intros idx l H; simpl; [reflexivity|].
  destruct (nth_error l idx) as [elem|] eqn:E; [|reflexivity].
  rewrite (H elem (nth_error_In _ _ E)). now apply IH.
Qed.

Lemma split_on_detected (s : string) :
  split_on_first_delimiter delimiters s
  = match detected_delimiter s with
    | Some d => Py.split d (Py.lower s)
    | None => []
    end.
Proof.
  unfold detected_delimiter, delimiters. cbn [split_on_first_delimiter find].
  destruct (Py.contains KEBAB s); [reflexivity|].
  destruct (Py.contains SNAKE s); [reflexivity|].
  destruct (Py.contains SPACE s); reflexivity.
Qed.

Lemma detected_is_delimiter (s d : string) :
  detected_delimiter s = Some d ->
  exists c, d = String c "" /\ delimiter_char c = true /\ Py.is_upper c = false.
Proof.
  unfold detected_delimiter, delimiters. cbn [find].
  destruct (Py.contains KEBAB s);
    [intros H; injection H as <-; exists "-"%char; repeat split|].
  destruct (Py.contains SNAKE s);
    [intros H; injection H as <-; exists "_"%char; repeat split|].
  destruct (Py.contains SPACE s);
    [intros H; injection H as <-; exists " "%char; repeat split|].
  discriminate.
Qed.

(** X1: when [_string_parts] returns, the list has a segment, the
    identifier had a delimiter, and every segment is free of upper-case
    letters and of the delimiter the identifier was split on. *)
Theorem string_parts_shape (identifier : string) (parts : list string) :
  _string_parts identifier = Ok parts ->
  parts <> []
  /\ exists delim,
       detected_delimiter identifier = Some delim
       /\ forall p, In p parts ->
                    all_chars not_upper p = true /\ Py.contains delim p = false.
Proof.
  intros H. split; [exact (string_parts_not_nil _ _ H)|].
  unfold _string_parts in H. rewrite split_on_detected in H.
  destruct (detected_delimiter identifier) as [delim|] eqn:E;
    [|discriminate H].
  exists delim. split; [reflexivity|].
  destruct (detected_is_delimiter _ _ E) as [c [-> [_ _]]].
  destruct (List.length (Py.split (String c "") (Py.lower identifier)) =? 0)%nat;
    [discriminate H|].
  injection H as <-. intros p Hp. apply remove_loop_In in Hp.
  unfold Py.split in Hp. split.
  - apply (split_from_all_chars not_upper (String c "") (Py.lower identifier)
             0 "" p); [reflexivity | apply lower_not_upper | exact Hp].
  - rewrite contains_char.
    apply (split_from_free c (Py.lower identifier) "" p); [reflexivity | exact Hp].
Qed.

Lemma string_parts_shape_witness :
  _string_parts "Foo_Bar_Intf" = Ok ["foo"; "bar"]
  /\ ["foo"; "bar"] <> []
  /\ exists delim,
       detected_delimiter "Foo_Bar_Intf" = Some delim
       /\ forall p, In p ["foo"; "bar"] ->
                    all_chars not_upper p = true /\ Py.contains delim p = false.
Proof.
  split; [reflexivity|].
  exact (string_parts_shape "Foo_Bar_Intf" ["foo"; "bar"] eq_refl).
Defined.

Lemma word_facts (p : string) :
  word p = true ->
  (p =? "") || (p =? "intf") = false
  /\ all_chars not_upper p = true
  /\ (forall c, delimiter_char c = true -> has_char c p = false).
Proof.
  unfold word. intros H.
  apply andb_true_iff in H. destruct H as [H Hall].
  apply andb_true_iff in H. destruct H as [H1 H2].
  repeat split.
  - destruct (p =? ""), (p =? "intf"); try discriminate; reflexivity.
  - revert Hall. apply all_chars_weaken. intros c Hc.
    apply andb_true_iff in Hc. destruct Hc as [Hc _].
    now apply andb_true_iff in Hc.
  - intros c Hc. apply (all_chars_has_char _ c p) in Hall; [exact Hall|].
    rewrite Hc. apply andb_false_r.
Qed.

(** The case mappings, character by character. *)
Lemma lower_char_of_raw (c : ascii) :
  is_ascii c && negb (delimiter_char c) = true ->
  is_ascii (Py.lower_char c) && not_upper (Py.lower_char c)
  && negb (delimiter_char (Py.lower_char c)) = true.
Proof.
  destruct c as [[] [] [] [] [] [] [] []]; vm_compute; intros H;
    (reflexivity || discriminate H).
Qed.

Lemma upper_lower_char (c : ascii) :
  Py.upper_char (Py.lower_char c) = Py.upper_char c.
Proof. destruct c as [[] [] [] [] [] [] [] []]; reflexivity. Qed.

Lemma lower_lower_char (c : ascii) :
  Py.lower_char (Py.lower_char c) = Py.lower_char c.
Proof. destruct c as [[] [] [] [] [] [] [] []]; reflexivity. Qed.

Lemma lower_upper_char (c : ascii) :
  Py.lower_char (Py.upper_char c) = Py.lower_char c.
Proof. destruct c as [[] [] [] [] [] [] [] []]; reflexivity. Qed.

Lemma cased_lower_char (c : ascii) :
  Py.is_upper (Py.lower_char c) || Py.is_lower (Py.lower_char c)
  = Py.is_upper c || Py.is_lower c.
Proof. destruct c as [[] [] [] [] [] [] [] []]; reflexivity. Qed.

Lemma lower_char_space (c : ascii) :
  Ascii.eqb (Py.lower_char c) " " = Ascii.eqb c " ".
Proof. destruct c as [[] [] [] [] [] [] [] []]; reflexivity. Qed.

Lemma upper_char_space (c : ascii) :
  Ascii.eqb (Py.upper_char c) " " = Ascii.eqb c " ".
Proof. destruct c as [[] [] [] [] [] [] [] []]; reflexivity. Qed.

Lemma map_chars_app (f : ascii -> ascii) (a b : string) :
  Py.map_chars f (a ++ b) = Py.map_chars f a ++ Py.map_chars f b.
Proof.
  induction a as [|x a IH]; [reflexivity|]. cbn [append Py.map_chars].
  now rewrite IH.
Qed.

Lemma map_chars_join (f : ascii -> ascii) (sep : string) (l : list string) :
  Py.map_chars f (Py.join sep l)
  = Py.join (Py.map_chars f sep) (map (Py.map_chars f) l).
Proof.
  unfold Py.join. induction l as [|x l IH]; [reflexivity|].
  destruct l as [|y l]; [reflexivity|].
  rewrite concat_two, !map_chars_app, IH. reflexivity.
Qed.

Lemma all_chars_map_chars (p q : ascii -> bool) (f : ascii -> ascii) (s : string) :
  (forall c, p c = true -> q (f c) = true) ->
  all_chars p s = true -> all_chars q (Py.map_chars f s) = true.
Proof.
  intros Hpq. induction s as [|c s IH]; [reflexivity|].
  cbn [all_chars Py.map_chars]. intros H.
  apply andb_true_iff in H. destruct H as [Hc Hs].
  now rewrite (Hpq c Hc), IH.
Qed.

Lemma upper_lower (s : string) : Py.upper (Py.lower s) = Py.upper s.
Proof.
  unfold Py.upper, Py.lower. induction s as [|c s IH]; [reflexivity|].
  cbn [Py.map_chars]. now rewrite upper_lower_char, IH.
Qed.

(** A word as it is written in an identifier gives, in lower case, a word
    in its final form. *)
Lemma raw_word_lower (p : string) :
  raw_word p = true -> word (Py.lower p) = true.
Proof.
  unfold raw_word, word. intros H.
  apply andb_true_iff in H. destruct H as [H Hall].
  apply andb_true_iff in H. destruct H as [H1 H2].
  rewrite H2. unfold Py.lower at 2.
  rewrite (all_chars_map_chars _ _ _ _ lower_char_of_raw Hall).
  destruct p; [discriminate H1 | reflexivity].
Qed.

Lemma word_raw (p : string) :
  word p = true -> raw_word p = true /\ Py.lower p = p.
Proof.
  intros H. destruct (word_facts p H) as [_ [Hupper _]].
  pose proof (lower_fixed p Hupper) as Hlower. split; [|exact Hlower].
  unfold raw_word, word in *. rewrite Hlower.
  apply andb_true_iff in H. destruct H as [H Hall]. rewrite H.
  revert Hall. apply all_chars_weaken. intros c Hc.
  apply andb_true_iff in Hc. destruct Hc as [Hc Hd].
  apply andb_true_iff in Hc. destruct Hc as [Ha _].
  now rewrite Ha, Hd.
Qed.

(** Words written in any case and joined with one of the delimiters are
    split into their lower-case forms. *)
Lemma string_parts_joined (delim : string) (parts : list string) :
  In delim delimiters ->
  2 <= List.length parts ->
  (forall p, In p parts -> raw_word p = true) ->
  _string_parts (Py.join delim parts) = Ok (map Py.lower parts).
Proof.
  intros Hdelim Hlen Hraw.
  destruct parts as [|x [|y l]]; try (simpl in Hlen; lia).
  assert (Hword : forall p, In p (map Py.lower (x :: y :: l)) -> word p = true).
  { intros p Hp. apply in_map_iff in Hp. destruct Hp as [q [<- Hq]].
    now apply raw_word_lower, Hraw. }
  assert (Hfree : forall c, delimiter_char c = true ->
                            forall p, In p (x :: y :: l) -> has_char c p = false).
  { intros c Hc p Hp. pose proof (Hraw p Hp) as H. unfold raw_word in H.
    apply andb_true_iff in H. destruct H as [_ Hall].
    apply (all_chars_has_char _ c p) in Hall; [exact Hall|].
    rewrite Hc. apply andb_false_r. }
  assert (Hlower : forall d : ascii,
             Py.lower_char d = d ->
             Py.lower (Py.join (String d "") (x :: y :: l))
             = Py.join (String d "") (map Py.lower (x :: y :: l))).
  { intros d Hd. unfold Py.lower at 1. rewrite map_chars_join.
    cbn [Py.map_chars]. now rewrite Hd. }
  assert (Hsplit : forall d : ascii,
             delimiter_char d = true ->
             Py.split (String d "") (Py.join (String d "") (map Py.lower (x :: y :: l)))
             = map Py.lower (x :: y :: l)).
  { intros d Hd. unfold Py.split. cbn [map]. rewrite split_join; [reflexivity|].
    intros p Hp. now apply (word_facts p (Hword p Hp)). }
  assert (Hnone : forall d c : ascii,
             delimiter_char c = true -> Ascii.eqb d c = false ->
             Py.contains (String c "") (Py.join (String d "") (x :: y :: l)) = false).
  { intros d c Hc Hdc. rewrite contains_char. apply has_char_join.
    - simpl. now rewrite Hdc.
    - apply (Hfree c Hc). }
  assert (Hloop : forall fuel,
             remove_loop fuel 0 (map Py.lower (x :: y :: l))
             = map Py.lower (x :: y :: l)).
  { intros fuel. apply remove_loop_fixed.
    intros p Hp. now apply (word_facts p (Hword p Hp)). }
  assert (Hsome : forall d : string,
             Py.contains d (Py.join d (x :: y :: l)) = true).
  { intros d. unfold Py.join. rewrite concat_two. apply contains_after. }
  unfold _string_parts, delimiters in *.
  destruct Hdelim as [<-|[<-|[<-|[]]]]; unfold KEBAB, SNAKE, SPACE in *;
    cbn [split_on_first_delimiter].
  - rewrite Hsome, Hlower, Hsplit by reflexivity. now rewrite Hloop.
  - rewrite (Hnone "_"%char "-"%char), Hsome, Hlower, Hsplit by reflexivity.
    now rewrite Hloop.
  - rewrite (Hnone " "%char "-"%char), (Hnone " "%char "_"%char), Hsome,
      Hlower, Hsplit by reflexivity.
    now rewrite Hloop.
Qed.

(** X2: round trip.  Two or more word segments in their final form (made
    of ASCII characters, not empty, not [intf], with no upper-case letter
    and no delimiter), joined with any of the three delimiters, are split
    again into the same segments. *)
Theorem string_parts_of_joined (delim : string) (parts : list string) :
  In delim delimiters ->
  2 <= List.length parts ->
  (forall p, In p parts -> word p = true) ->
  _string_parts (Py.join delim parts) = Ok parts.
Proof.
  intros Hdelim Hlen Hword.
  rewrite (string_parts_joined delim parts Hdelim Hlen).
  - f_equal. rewrite <- (map_id parts) at 2. apply map_ext_in.
    intros p Hp. now apply word_raw, Hword.
  - intros p Hp. now apply word_raw, Hword.
Qed.

Lemma string_parts_of_joined_witness :
  Py.join "-" ["foo"; "bar"] = "foo-bar"
  /\ _string_parts (Py.join "-" ["foo"; "bar"]) = Ok ["foo"; "bar"].
Proof.
  split; [reflexivity|].
  apply (string_parts_of_joined "-" ["foo"; "bar"]).
  - left. reflexivity.
  - simpl. lia.
  - intros p [<-|[<-|[]]]; reflexivity.
Defined.

(** A single segment does not come back: its snake form has no delimiter. *)
Example snake_of_single_segment :
  _snake_case "foo_" = Ok "foo"
  /\ _string_parts "foo" = Raise (ValueError "Error: Unsupported delimeter").
Proof. split; reflexivity. Qed.

(** [str.title] word by word, and [str.replace] on the joined words. *)
Lemma title_from_lower (s : string) :
  forall b, Py.title_from b (Py.lower s) = Py.title_from b s.
Proof.
  unfold Py.lower. induction s as [|c s IH]; intros b; [reflexivity|].
  cbn [Py.map_chars Py.title_from].
  rewrite cased_lower_char, lower_lower_char, upper_lower_char, !IH.
  destruct (Py.is_upper c) eqn:E; [reflexivity|].
  unfold Py.lower_char. now rewrite E.
Qed.

Lemma title_from_app_space (x y : string) :
  forall b,
    Py.title_from b (x ++ String " " y)
    = Py.title_from b x ++ String " " (Py.title_from false y).
Proof.
  induction x as [|c x IH]; intros b; [reflexivity|].
  cbn [append Py.title_from]. rewrite !IH.
  destruct (Py.is_upper c || Py.is_lower c); reflexivity.
Qed.

Lemma title_join (l : list string) :
  Py.title (Py.join " " l) = Py.join " " (map Py.title l).
Proof.
  unfold Py.title, Py.join. induction l as [|x l IH]; [reflexivity|].
  destruct l as [|y l]; [reflexivity|].
  rewrite concat_two. cbn [append]. rewrite title_from_app_space, IH.
  reflexivity.
Qed.

Lemma title_from_has_space (s : string) :
  forall b, has_char " " (Py.title_from b s) = has_char " " s.
Proof.
  induction s as [|c s IH]; intros b; [reflexivity|].
  cbn [Py.title_from].
  destruct (Py.is_upper c || Py.is_lower c), b; cbn [has_char];
    now rewrite ?lower_char_space, ?upper_char_space, IH.
Qed.

Lemma replace_app (old : ascii) (new a b : string) :
  Py.replace old new (a ++ b) = Py.replace old new a ++ Py.replace old new b.
Proof.
  induction a as [|c a IH]; [reflexivity|]. cbn [append Py.replace].
  rewrite IH. destruct (Ascii.eqb c old); [|reflexivity].
  now rewrite append_assoc.
Qed.

Lemma replace_free (old : ascii) (new s : string) :
  has_char old s = false -> Py.replace old new s = s.
Proof.
  induction s as [|c s IH]; [reflexivity|]. cbn [has_char Py.replace].
  intros H. apply orb_false_iff in H. destruct H as [Hc Hs].
  now rewrite Hc, IH.
Qed.

Lemma replace_join (l : list string) :
  (forall p, In p l -> has_char " " p = false) ->
  Py.replace " " "" (Py.join " " l) = Py.join "" l.
Proof.
  unfold Py.join. induction l as [|x l IH]; intros H; [reflexivity|].
  destruct l as [|y l].
  - cbn [String.concat]. apply replace_free, H. now left.
  - rewrite !concat_two, replace_app. cbn [append].
    rewrite (replace_free _ _ x) by (apply H; now left).
    cbn [Py.replace Ascii.eqb Bool.eqb]. cbn [append].
    rewrite IH; [reflexivity|]. intros p Hp. apply H. now right.
Qed.

Lemma raw_word_no_space (p : string) :
  raw_word p = true -> has_char " " p = false.
Proof.
  unfold raw_word. intros H. apply andb_true_iff in H. destruct H as [_ Hall].
  apply (all_chars_has_char _ " "%char p) in Hall; [exact Hall | reflexivity].
Qed.

Lemma pascal_case_joined (delim : string) (parts : list string) :
  In delim delimiters ->
  2 <= List.length parts ->
  (forall p, In p parts -> raw_word p = true) ->
  _pascal_case (Py.join delim parts) = Ok (Py.join "" (map Py.title parts)).
Proof.
  intros Hdelim Hlen Hraw. unfold _pascal_case, _space_separated.
  rewrite (string_parts_joined delim parts Hdelim Hlen Hraw). cbn [bind].
  unfold SPACE. rewrite title_join, map_map.
  rewrite (map_ext _ Py.title) by (intros p; apply title_from_lower).
  rewrite replace_join; [reflexivity|].
  intros t Ht. apply in_map_iff in Ht. destruct Ht as [p [<- Hp]].
  unfold Py.title. rewrite title_from_has_space.
  now apply raw_word_no_space, Hraw.
Qed.

(** X3: for two or more words written in any case (each a non-empty
    string of ASCII characters with none of the delimiters, whose
    lower-case form is not [intf]) and joined with one of the three
    delimiters, [_pascal_case] is the title forms of the words put
    together without a separator, and [_camel_case] is the same with the
    first character in lower case; neither raises. *)
Theorem pascal_and_camel_of_joined (delim : string) (c : ascii) (w : string)
  (rest : list string) :
  In delim delimiters ->
  rest <> [] ->
  (forall p, In p (String c w :: rest) -> raw_word p = true) ->
  _pascal_case (Py.join delim (String c w :: rest))
  = Ok (Py.join "" (map Py.title (String c w :: rest)))
  /\ _camel_case (Py.join delim (String c w :: rest))
     = Ok (String (Py.lower_char c)
                  (Py.tail (Py.title (String c w))
                   ++ Py.join "" (map Py.title rest))).
Proof.
  intros Hdelim Hrest Hraw.
  assert (Hlen : 2 <= List.length (String c w :: rest)).
  { destruct rest; [now elim Hrest | simpl; lia]. }
  pose proof (pascal_case_joined delim _ Hdelim Hlen Hraw) as Hpascal.
  split; [exact Hpascal|].
  unfold _camel_case. rewrite Hpascal. clear Hpascal.
  destruct rest as [|y l]; [now elim Hrest|].
  assert (Htitle : exists c' t,
             Py.title (String c w) = String c' t
             /\ Py.lower_char c' = Py.lower_char c).
  { unfold Py.title. cbn [Py.title_from].
    destruct (Py.is_upper c || Py.is_lower c); eexists _, _;
      (split; [reflexivity | first [apply lower_upper_char | reflexivity]]). }
  destruct Htitle as [c' [t [Ht Hc]]].
  cbn [map]. unfold Py.join. rewrite concat_two, Ht.
  cbn [append Py.first_char bind Py.tail]. now rewrite Hc.
Qed.

Lemma pascal_and_camel_of_joined_witness :
  Py.join "_" ["Foo"; "BAR"] = "Foo_BAR"
  /\ _pascal_case (Py.join "_" ["Foo"; "BAR"]) = Ok "FooBar"
  /\ _camel_case (Py.join "_" ["Foo"; "BAR"]) = Ok "fooBar".
Proof.
  split; [reflexivity|].
  apply (pascal_and_camel_of_joined "_" "F" "oo" ["BAR"]).
  - right. left. reflexivity.
  - discriminate.
  - intros p [<-|[<-|[]]]; reflexivity.
Defined.

(** The pascal form can be empty, and [_camel_case] then fails on its
    first character. *)
Example camel_case_of_delimiter_only :
  _pascal_case "_" = Ok "" /\ _camel_case "_" = Raise IndexError.
Proof. split; reflexivity. Qed.

(** X4: for two or more words written in any case (as in X3) and joined
    with one of the three delimiters, the derived names are the
    lower-case words joined with [_] or [-], the file names the kebab
    form followed by [-gmock.h] and [-gmock.cpp], the class name the
    upper-case words joined with [_] and followed by [_GMOCK], and the
    header guard the class name followed by [_H_]: they depend neither on
    the delimiter used nor on the case the words were written in. *)
Theorem names_of_joined (delim : string) (parts : list string) :
  In delim delimiters ->
  2 <= List.length parts ->
  (forall p, In p parts -> raw_word p = true) ->
  _snake_case (Py.join delim parts) = Ok (Py.join "_" (map Py.lower parts))
  /\ _kebab_case (Py.join delim parts) = Ok (Py.join "-" (map Py.lower parts))
  /\ gmock_h_file_name (Py.join delim parts)
     = Ok (Py.join "-" (map Py.lower parts) ++ "-gmock.h")
  /\ gmock_cpp_file_name (Py.join delim parts)
     = Ok (Py.join "-" (map Py.lower parts) ++ "-gmock.cpp")
  /\ gmock_class_name (Py.join delim parts)
     = Ok (Py.join "_" (map Py.upper parts) ++ "_GMOCK")
  /\ header_guard_name (Py.join delim parts)
     = Ok (Py.join "_" (map Py.upper parts) ++ "_GMOCK_H_").
Proof.
  intros Hdelim Hlen Hraw.
  pose proof (string_parts_joined delim parts Hdelim Hlen Hraw) as Hparts.
  assert (Hupper : Py.upper (Py.join "_" (map Py.lower parts))
                   = Py.join "_" (map Py.upper parts)).
  { unfold Py.upper at 1. rewrite map_chars_join, map_map.
    apply f_equal, map_ext. intros p. apply upper_lower. }
  unfold header_guard_name, gmock_class_name, gmock_h_file_name,
    gmock_cpp_file_name, _snake_case, _kebab_case.
  rewrite Hparts. cbn [bind]. unfold SNAKE, KEBAB. rewrite Hupper.
  repeat split. now rewrite append_assoc.
Qed.

Lemma names_of_joined_witness :
  Py.join " " ["Foo"; "Bar"] = "Foo Bar"
  /\ _snake_case (Py.join " " ["Foo"; "Bar"]) = Ok "foo_bar"
  /\ _kebab_case (Py.join " " ["Foo"; "Bar"]) = Ok "foo-bar"
  /\ gmock_h_file_name (Py.join " " ["Foo"; "Bar"]) = Ok "foo-bar-gmock.h"
  /\ gmock_cpp_file_name (Py.join " " ["Foo"; "Bar"]) = Ok "foo-bar-gmock.cpp"
  /\ gmock_class_name (Py.join " " ["Foo"; "Bar"]) = Ok "FOO_BAR_GMOCK"
  /\ header_guard_name (Py.join " " ["Foo"; "Bar"]) = Ok "FOO_BAR_GMOCK_H_".
Proof.
  split; [reflexivity|].
  apply (names_of_joined " " ["Foo"; "Bar"]).
  - right. right. left. reflexivity.
  - simpl. lia.
  - intros p [<-|[<-|[]]]; reflexivity.
Defined.

End Names.

(** ** MockMethod: the operator table and the rendered list *)

Section Operators.

Import MockMethod Notions.

Lemma lookup_In (key value : string) (table : list (string * string)) :
  lookup key table = Some value -> In (key, value) table.
Proof.
  induction table as [|[k v] table IH]; simpl; [discriminate|].
  destruct (String.eqb_spec k key) as [->|_].
  - intros H. injection H as ->. now left.
  - intros H. right. now apply IH.
Qed.

Lemma mem_In (x : string) (l : list string) : In x l -> Py.mem x l = true.
Proof.
  induction l as [|y l IH]; simpl; [tauto|].
  intros [->|H]; [now rewrite String.eqb_refl | rewrite (IH H); apply orb_true_r].
Qed.

Lemma distinct_values (table : list (string * string)) :
  distinct (map snd table) = true ->
  forall k1 k2 v, In (k1, v) table -> In (k2, v) table -> k1 = k2.
Proof.
  induction table as [|[k v0] table IH]; intros Hd k1 k2 v H1 H2; [contradiction|].
  cbn [map snd distinct] in Hd. apply andb_true_iff in Hd. destruct Hd as [Hv Hd].
  assert (Hnot : forall k, In (k, v0) table -> False).
  { intros k' Hk. apply (in_map snd) in Hk. apply mem_In in Hk.
    cbn [snd] in Hk. now rewrite Hk in Hv. }
  destruct H1 as [H1|H1], H2 as [H2|H2].
  - congruence.
  - injection H1 as _ <-. now elim (Hnot k2).
  - injection H2 as _ <-. now elim (Hnot k1).
  - now apply (IH Hd k1 k2 v).
Qed.

(** X5: two operator spellings never share a descriptive name, and each
    descriptive name of the table is an identifier (lower-case letters,
    digits and underscores, not empty) under a key that starts with
    [operator]: the mocks of two different operators cannot collide. *)
Theorem operator_names_distinct (key1 key2 descriptive : string) :
  lookup key1 operators = Some descriptive ->
  lookup key2 operators = Some descriptive ->
  key1 = key2
  /\ identifier descriptive = true
  /\ prefix "operator" key1 = true.
Proof.
  intros H1 H2. apply lookup_In in H1. apply lookup_In in H2.
  split; [apply (distinct_values operators eq_refl _ _ _ H1 H2)|].
  assert (Hall : forallb (fun kv => identifier (snd kv) && prefix "operator" (fst kv))
                   operators = true) by reflexivity.
  rewrite forallb_forall in Hall. specialize (Hall _ H1).
  now apply andb_true_iff in Hall.
Qed.

Lemma operator_names_distinct_witness :
  lookup "operator[]" operators = Some "array_subscript_operator"
  /\ identifier "array_subscript_operator" = true
  /\ prefix "operator" "operator[]" = true.
Proof.
  split; [reflexivity|].
  exact (proj2 (operator_names_distinct "operator[]" "operator[]"
                  "array_subscript_operator" eq_refl eq_refl)).
Defined.

Lemma enumerate_loop_later {A : Type} (f : A -> string) (sep : string)
  (xs : list A) :
  forall (i : nat) (result : string),
    Py.enumerate_loop f sep (S i) xs result
    = result ++ String.concat "" (map (fun x => sep ++ f x) xs).
Proof.
  induction xs as [|x xs IH]; intros i result.
  - simpl. now rewrite append_empty_r.
  - cbn [Py.enumerate_loop Nat.eqb map]. rewrite IH, concat_cons.
    now rewrite !append_assoc.
Qed.

Lemma join_cons (sep x : string) (l : list string) :
  Py.join sep (x :: l) = x ++ String.concat "" (map (fun y => sep ++ y) l).
Proof.
  unfold Py.join. revert x. induction l as [|y l IH]; intros x.
  - simpl. now rewrite append_empty_r.
  - rewrite concat_two, IH. cbn [map]. now rewrite concat_cons, append_assoc.
Qed.

Lemma enumerate_loop_join {A : Type} (f : A -> string) (sep : string)
  (xs : list A) :
  Py.enumerate_loop f sep 0 xs "" = Py.join sep (map f xs).
Proof.
  destruct xs as [|x xs]; [reflexivity|].
  cbn [Py.enumerate_loop Nat.eqb map]. rewrite enumerate_loop_later, join_cons.
  now rewrite map_map.
Qed.

(** X6: the mock methods are rendered in order with the default gap, one
    newline between two of them and none before the first or after the
    last; an empty list gives the empty text. *)
Theorem pretty_mock_methods_joined (mock_methods : list MockMethod.t) :
  MockGenerator._pretty_mock_methods mock_methods
  = Py.join Py.newline (map (fun m => to_string m default_gap) mock_methods)
  /\ (forall m later,
        MockGenerator._pretty_mock_methods (m :: later)
        = to_string m default_gap
            ++ String.concat ""
                 (map (fun m' => Py.newline ++ to_string m' default_gap) later)).
Proof.
  unfold MockGenerator._pretty_mock_methods. split.
  - apply enumerate_loop_join.
  - intros m later. cbn [Py.enumerate_loop Nat.eqb].
    now rewrite enumerate_loop_later.
Qed.

End Operators.

(** ** MockGenerator._get_arguments_and_num_args: edge cases and counting *)

Section Counting.

Import MockGenerator Notions.

Lemma locate_without_opener (tokens : list string) (i : nat) :
  Py.mem "(" tokens = false ->
  1 <= i < List.length tokens ->
  locate tokens i = Ok (i, false).
Proof.
  intros Hmem Hi. unfold locate, Py.index.
  destruct (nth_error tokens (i - 1)) as [p|] eqn:Ep;
    [|apply nth_error_None in Ep; lia].
  destruct (nth_error tokens i) as [q|] eqn:Eq;
    [|apply nth_error_None in Eq; lia].
  assert (Hp : (p =? "(") = false)
    by (apply (mem_false_In _ _ Hmem), (nth_error_In _ _ Ep)).
  assert (Hq : (q =? "(") = false)
    by (apply (mem_false_In _ _ Hmem), (nth_error_In _ _ Eq)).
  cbn [bind]. destruct (p =? "operator"); cbn [bind].
  - rewrite Hq. cbn [bind]. rewrite Ep. cbn [bind]. now rewrite Hp.
  - rewrite Ep. cbn [bind]. now rewrite Hp.
Qed.

(** X7: a token stream with no ["("] at all has no parameter list: the
    answer is count 0 and the empty text, and nothing is raised. *)
Theorem arguments_without_opener (tokens : list string) :
  Py.mem "(" tokens = false ->
  _get_arguments_and_num_args tokens = Ok (0, "").
Proof.
  intros Hmem.
  rewrite (get_arguments_finish tokens (Ok ("", 0))); [reflexivity|].
  rewrite <- (app_nil_r (seq 1 (List.length tokens - 1))).
  rewrite scan_loop_skip; [reflexivity|].
  intros i Hi. apply in_seq in Hi.
  apply locate_without_opener; [exact Hmem | lia].
Qed.

Lemma arguments_without_opener_witness :
  Py.mem "(" ["int"; "operator"; "x"] = false
  /\ _get_arguments_and_num_args ["int"; "operator"; "x"] = Ok (0, "").
Proof.
  split; [reflexivity|].
  apply (arguments_without_opener ["int"; "operator"; "x"]). reflexivity.
Defined.

(** X8: an empty parameter list gives count 0 and the empty text whatever
    follows the closing parenthesis, for an ordinary method and for the
    call operator alike. *)
Theorem arguments_of_empty_list (pre tail : list string) (name : string) :
  Py.mem "(" pre = false ->
  (name =? "(") = false ->
  (name =? "operator") = false ->
  _get_arguments_and_num_args (pre ++ [name; "("; ")"] ++ tail)%list = Ok (0, "")
  /\ _get_arguments_and_num_args
       (pre ++ ["operator"; "("; ")"; "("; ")"] ++ tail)%list = Ok (0, "").
Proof.
  intros Hpre Hname Hop. split.
  - apply (arguments_of_ordinary_method pre name (")" :: tail));
      [assumption | assumption | assumption | discriminate].
  - apply (arguments_of_call_operator pre (")" :: tail)). assumption.
Qed.

Lemma arguments_of_empty_list_witness :
  _get_arguments_and_num_args ["virtual"; "int"; "size"; "("; ")"; "const"; "="; "0"]
  = Ok (0, "")
  /\ _get_arguments_and_num_args
       ["virtual"; "int"; "operator"; "("; ")"; "("; ")"; "const"; "="; "0"]
     = Ok (0, "").
Proof.
  exact (arguments_of_empty_list ["virtual"; "int"] ["const"; "="; "0"] "size"
           eq_refl eq_refl eq_refl).
Defined.

Lemma copy_step_raises (tok next a : string) (f : bool) (c : nat) (e : exn) :
  copy_step tok next a f c = Raise e -> e = IndexError.
Proof.
  unfold copy_step, is_closing_run.
  destruct next as [|x next]; cbn [Py.first_char bind].
  - destruct (Py.mem "" ["::"; ","; ")"; "<"; ">"]);
      [|destruct (Py.mem tok ["::"; "<"])]; cbn [bind];
      destruct (tok =? "<"); cbn [bind]; intros H; congruence.
  - assert (Hlast : exists b, Py.last_char (String x next) = Ok b).
    { clear. revert x. induction next as [|y next IH]; intros x; [now exists x|].
      destruct (IH y) as [b Hb]. exists b. exact Hb. }
    destruct Hlast as [b Hb]. rewrite Hb. cbn [bind].
    destruct (Py.mem (String x next) ["::"; ","; ")"; "<"; ">"]);
      [|destruct (Py.mem tok ["::"; "<"])]; cbn [bind];
      destruct (Ascii.eqb x ">"); cbn [bind];
      destruct (tok =? "<"); cbn [bind];
      try destruct (Ascii.eqb b ">"); cbn [bind];
      try destruct ((tok =? ",") && negb f); intros H; discriminate H.
Qed.

Lemma copy_params_unterminated (rest : list string) :
  Py.mem ")" rest = false ->
  forall (a : string) (f : bool) (c : nat),
    Spec.copy_params rest a f c = Raise IndexError.
Proof.
  induction rest as [|tok rest IH]; intros Hmem a f c; [reflexivity|].
  cbn [Py.mem] in Hmem. apply orb_false_iff in Hmem. destruct Hmem as [Htok Hrest].
  cbn [Spec.copy_params]. rewrite String.eqb_sym, Htok.
  destruct rest as [|next rest']; [reflexivity|].
  destruct (copy_step tok next a f c) as [[a' [f' c']]|e] eqn:E; cbn [bind fst snd].
  - now apply IH.
  - now rewrite (copy_step_raises _ _ _ _ _ _ E).
Qed.

(** X9: a parameter list that is opened and never closed makes
    [_get_arguments_and_num_args] raise an [IndexError].  The list is the
    one of an ordinary method: the first ["("] of the token stream comes
    right after the method name, which is not [operator]; at least one
    token follows that ["("], and none of the tokens after it is [")"]. *)
Theorem arguments_unterminated (pre rest : list string) (name : string) :
  Py.mem "(" pre = false ->
  (name =? "(") = false ->
  (name =? "operator") = false ->
  rest <> [] ->
  Py.mem ")" rest = false ->
  _get_arguments_and_num_args (pre ++ [name; "("] ++ rest)%list = Raise IndexError.
Proof.
  intros Hpre Hname Hop Hrest Hclose.
  rewrite arguments_of_ordinary_method by assumption.
  now rewrite copy_params_unterminated.
Qed.

Lemma arguments_unterminated_witness :
  _get_arguments_and_num_args ["void"; "f"; "("; "int"; ","; "char"] = Raise IndexError.
Proof.
  apply (arguments_unterminated ["void"] ["int"; ","; "char"] "f");
    try reflexivity.
  discriminate.
Defined.

End Counting.

(** ** Counting the arguments of a parameter list without nested brackets *)

Section FlatCounting.

Import MockGenerator Notions.

Lemma is_closing_run_nonempty (tok : string) :
  (tok =? "") = false -> is_closing_run tok = Ok (Spec.closing_run tok).
Proof.
  unfold Spec.closing_run. destruct tok as [|x tok]; [discriminate|]. intros _.
  assert (Hlast : exists b, Py.last_char (String x tok) = Ok b).
  { revert x. induction tok as [|y tok IH]; intros x; [now exists x|].
    destruct (IH y) as [b Hb]. exists b. exact Hb. }
  destruct Hlast as [b Hb]. unfold is_closing_run. cbn [Py.first_char bind].
  rewrite Hb. cbn [bind]. destruct (Ascii.eqb x ">"); reflexivity.
Qed.

Lemma closing_run_length (tok : string) :
  Spec.closing_run tok = true -> 1 <= String.length tok.
Proof.
  destruct tok; [discriminate | simpl; lia].
Qed.

Lemma closing_run_not_comma (tok : string) :
  Spec.closing_run tok = true -> (tok =? ",") = false /\ (tok =? "<") = false.
Proof.
  intros H. split.
  - destruct (String.eqb_spec tok ","); [subst; discriminate H | reflexivity].
  - destruct (String.eqb_spec tok "<"); [subst; discriminate H | reflexivity].
Qed.

(** One turn of the loop when the next token is not empty. *)
Lemma copy_step_next (tok next a : string) (f : bool) (c : nat) :
  (next =? "") = false ->
  exists sp,
    copy_step tok next a f c
    = Ok (a ++ tok ++ sp,
          if tok =? "<" then (true, c)
          else if Spec.closing_run next then (false, c)
          else if (tok =? ",") && negb f then (f, c + 1)
          else (f, c)).
Proof.
  intros Hnext. unfold copy_step. rewrite (is_closing_run_nonempty _ Hnext).
  destruct (Py.mem next ["::"; ","; ")"; "<"; ">"]);
    [|destruct (Py.mem tok ["::"; "<"]); [|destruct (Spec.closing_run next) eqn:E]];
    cbn [bind];
    destruct (tok =? "<"); cbn [bind];
    try destruct (Spec.closing_run next); cbn [bind];
    try destruct ((tok =? ",") && negb f);
    try (exists ""; now rewrite !append_empty_r);
    try (exists " "; now rewrite append_assoc).
Qed.

Lemma flat_from_rest (inside : bool) (tok : string) (rest : list string) :
  flat_from inside (tok :: rest) = true ->
  (tok =? "") = false /\ (tok =? ")") = false
  /\ exists inside', flat_from inside' rest = true.
Proof.
  cbn [flat_from]. intros H.
  apply andb_true_iff in H. destruct H as [Hne H].
  apply andb_true_iff in Hne. destruct Hne as [H1 H2].
  apply negb_true_iff in H1, H2. repeat split; try assumption.
  destruct (tok =? "<"); [|destruct (Spec.closing_run tok)].
  - apply andb_true_iff in H. destruct H as [_ H]. now exists true.
  - apply andb_true_iff in H. destruct H as [_ H]. now exists false.
  - now exists inside.
Qed.

Lemma copy_params_flat (tail : list string) (params : list string) :
  forall (inside f : bool) (a : string) (c : nat),
    flat_from inside params = true ->
    flag_agrees inside f params ->
    exists text,
      Spec.copy_params (params ++ ")" :: tail)%list a f c
      = Ok (a ++ text,
            c + Spec.top_level_commas_from (depth_of inside) params)
      /\ (params <> [] -> text <> "").
Proof.
  induction params as [|tok rest IH]; intros inside f a c Hflat Hagree.
  - exists "". rewrite append_empty_r. cbn. rewrite Nat.add_0_r.
    split; [reflexivity | congruence].
  - pose proof (flat_from_rest _ _ _ Hflat) as [_ [_ [inside' Hrest0]]].
    cbn [flat_from] in Hflat.
    apply andb_true_iff in Hflat. destruct Hflat as [Hne Hflat].
    apply andb_true_iff in Hne. destruct Hne as [Hempty Hparen].
    apply negb_true_iff in Hempty, Hparen.
    change ((tok :: rest) ++ ")" :: tail)%list
      with (tok :: (rest ++ ")" :: tail))%list.
    cbn [Spec.copy_params]. rewrite Hparen.
    (* the next token, and what is known of it *)
    assert (Hnext : exists next more,
               (rest ++ ")" :: tail)%list = next :: more
               /\ (next =? "") = false
               /\ Spec.closing_run next
                  = match rest with
                    | n :: _ => Spec.closing_run n
                    | [] => false
                    end).
    { destruct rest as [|n rest'].
      - exists ")", tail. repeat split.
      - exists n, (rest' ++ ")" :: tail)%list. repeat split.
        now apply (flat_from_rest _ _ _ Hrest0). }
    destruct Hnext as [next [more [Enext [Hnext Hclosing]]]].
    rewrite Enext.
    destruct (copy_step_next tok next a f c Hnext) as [sp Hstep].
    rewrite Hstep. cbn [bind fst snd]. rewrite <- Enext.
    cbn [Spec.top_level_commas_from]. cbn [flag_agrees] in Hagree.
    assert (Htext : forall text', a ++ (tok ++ sp) ++ text' = a ++ (tok ++ sp ++ text'))
      by (intros; now rewrite !append_assoc).
    assert (Hnonempty : forall text', tok ++ sp ++ text' <> "")
      by (intros; destruct tok; [discriminate Hempty | discriminate]).
    destruct (tok =? "<") eqn:Elt.
    + (* an opening bracket *)
      apply String.eqb_eq in Elt. subst tok.
      apply andb_true_iff in Hflat. destruct Hflat as [Hflat Hrest].
      apply andb_true_iff in Hflat. destruct Hflat as [Hin Hnoclose].
      apply negb_true_iff in Hin, Hnoclose. subst inside.
      destruct (IH true true (a ++ "<" ++ sp) c Hrest) as [text [Hcopy _]].
      { unfold flag_agrees. destruct rest as [|n rest']; [reflexivity|].
        now rewrite Hnoclose. }
      cbn [fst snd]. rewrite Hcopy. exists ("<" ++ sp ++ text).
      rewrite append_assoc. cbn [depth_of]. split; [|intros _; discriminate].
      now rewrite !append_assoc.
    + destruct (Spec.closing_run tok) eqn:Eclose.
      * (* a closing run: the flag was cleared one turn before *)
        apply andb_true_iff in Hflat. destruct Hflat as [Hin Hrest]. subst inside f.
        destruct (closing_run_not_comma _ Eclose) as [Hcomma _].
        assert (Hnc : Spec.closing_run next = false).
        { rewrite Hclosing. destruct rest as [|n rest']; [reflexivity|].
          cbn [flat_from] in Hrest.
          destruct (n =? "<") eqn:En;
            [apply String.eqb_eq in En; now subst n|].
          destruct (Spec.closing_run n); [|reflexivity].
          repeat (apply andb_true_iff in Hrest; destruct Hrest as [? Hrest]).
          discriminate. }
        rewrite Hnc, Hcomma. cbn [andb fst snd].
        destruct (IH false false (a ++ tok ++ sp) c Hrest) as [text [Hcopy _]].
        { unfold flag_agrees. destruct rest as [|n rest']; [reflexivity|].
          rewrite Hclosing in Hnc. now rewrite Hnc. }
        rewrite Hcopy. exists (tok ++ sp ++ text). cbn [depth_of].
        replace (1 - String.length tok) with 0
          by (pose proof (closing_run_length _ Eclose); lia).
        split; [|intros _; apply Hnonempty].
        now rewrite !append_assoc.
      * (* any other token *)
        subst f.
        destruct (Spec.closing_run next) eqn:Enc.
        -- (* the next token closes the bracket: the flag is cleared now *)
           destruct rest as [|n rest']; [discriminate Hclosing|].
           symmetry in Hclosing.
           assert (Hin : inside = true).
           { pose proof Hflat as H. cbn [flat_from] in H.
             destruct (closing_run_not_comma _ Hclosing) as [_ Hlt].
             rewrite Hclosing, Hlt in H.
             apply andb_true_iff in H. destruct H as [_ H].
             now apply andb_true_iff in H. }
           subst inside. cbn [fst snd].
           destruct (IH true false (a ++ tok ++ sp) c Hflat) as [text [Hcopy _]].
           { unfold flag_agrees. now rewrite Hclosing. }
           rewrite Hcopy. exists (tok ++ sp ++ text). cbn [depth_of Nat.eqb].
           rewrite andb_false_r.
           split; [|intros _; apply Hnonempty].
           now rewrite !append_assoc.
        -- assert (Hagree' : flag_agrees inside inside rest).
           { unfold flag_agrees.
             destruct rest as [|n rest']; [reflexivity | now rewrite <- Hclosing]. }
           assert (Hzero : (depth_of inside =? 0)%nat = negb inside)
             by (destruct inside; reflexivity).
           rewrite Hzero.
           destruct ((tok =? ",") && negb inside); cbn [fst snd].
           ++ destruct (IH inside inside (a ++ tok ++ sp) (c + 1) Hflat Hagree')
                as [text [Hcopy _]].
              rewrite Hcopy. exists (tok ++ sp ++ text).
              split; [|intros _; apply Hnonempty].
              rewrite !append_assoc. do 2 f_equal. lia.
           ++ destruct (IH inside inside (a ++ tok ++ sp) c Hflat Hagree')
                as [text [Hcopy _]].
              rewrite Hcopy. exists (tok ++ sp ++ text).
              split; [|intros _; apply Hnonempty].
              now rewrite !append_assoc.
Qed.

(** X10: counting the arguments of an ordinary method.  The first ["("]
    of the token stream comes right after the method name, which is not
    [operator], and [params] are the tokens between that ["("] and the
    first [")"] after it (so no token of [params] is [")"]: a
    parenthesised declarator, such as a pointer to a function, ends
    [params] at its first [")"]).  When [params] is [flat] (no token is
    empty; a ["<"] comes only outside an open bracket and is not followed
    at once by a closing run, a token that starts and ends with [>]; a
    closing run comes only inside a bracket; every bracket is closed at
    the end), the argument count is the number of commas of [params]
    outside the brackets plus one, and zero for the empty list; the
    argument text is empty exactly for the empty list. *)
Theorem flat_parameters_counted (pre params tail : list string) (name : string) :
  Py.mem "(" pre = false ->
  (name =? "(") = false ->
  (name =? "operator") = false ->
  flat params = true ->
  exists text,
    _get_arguments_and_num_args (pre ++ [name; "("] ++ params ++ ")" :: tail)%list
    = Ok (match params with
          | [] => 0
          | _ :: _ => Spec.top_level_commas params + 1
          end, text)
    /\ (text = "" <-> params = []).
Proof.
  intros Hpre Hname Hop Hflat.
  rewrite arguments_of_ordinary_method; try assumption;
    [|destruct params; discriminate].
  destruct (copy_params_flat tail params false false "" 0 Hflat)
    as [text [Hcopy Htext]].
  { unfold flag_agrees. destruct params as [|tok rest]; [reflexivity|].
    destruct (Spec.closing_run tok) eqn:E; [|reflexivity].
    unfold flat in Hflat. cbn [flat_from] in Hflat. rewrite E in Hflat.
    destruct (closing_run_not_comma _ E) as [_ Hlt]. rewrite Hlt in Hflat.
    apply andb_true_iff in Hflat. destruct Hflat as [_ Hflat]. discriminate Hflat. }
  rewrite Hcopy. cbn [append Nat.add depth_of]. exists text.
  unfold Spec.finish. cbn [bind]. fold (Spec.top_level_commas params).
  destruct params as [|tok rest].
  - cbn in Hcopy. injection Hcopy as <-. split; [reflexivity | tauto].
  - destruct text as [|ch text]; [now elim Htext|].
    split; [reflexivity | split; discriminate].
Qed.

Lemma flat_parameters_counted_witness :
  flat ["int"; ","; "map"; "<"; "int"; ","; "int"; ">"; "m"] = true
  /\ Spec.top_level_commas ["int"; ","; "map"; "<"; "int"; ","; "int"; ">"; "m"] = 1
  /\ exists text,
       _get_arguments_and_num_args
         ["void"; "f"; "("; "int"; ","; "map"; "<"; "int"; ","; "int"; ">"; "m";
          ")"; "const"]
       = Ok (2, text)
       /\ (text = ""
           <-> ["int"; ","; "map"; "<"; "int"; ","; "int"; ">"; "m"] = []).
Proof.
  split; [reflexivity|]. split; [reflexivity|].
  exact (flat_parameters_counted ["void"]
           ["int"; ","; "map"; "<"; "int"; ","; "int"; ">"; "m"] ["const"] "f"
           eq_refl eq_refl eq_refl eq_refl).
Defined.

End FlatCounting.

(** ** Qualified names: interface, namespaces and template parameters *)

Section QualifiedNames.

Import MockGenerator Notions.

Lemma split_joined (c0 : ascii) (sep' : string) (l : list string) :
  l <> [] ->
  (forall y, In y l -> has_char c0 y = false) ->
  Py.split (String c0 sep') (Py.join (String c0 sep') l) = l.
Proof.
  intros Hl H. destruct l as [|x l]; [now elim Hl|].
  unfold Py.split. now rewrite split_join.
Qed.

Lemma split_qualified (namespaces : list string) (last : string) :
  (forall y, In y (namespaces ++ [last])%list -> has_char ":" y = false) ->
  Py.split "::" (Py.join "::" (namespaces ++ [last])%list)
  = (namespaces ++ [last])%list.
Proof.
  intros H. apply (split_joined ":" ":"); [|exact H].
  destruct namespaces; discriminate.
Qed.

(** X11: for a qualified name [n1::...::nk::Name] whose segments have no
    colon, the namespace text opens [namespace ni {] for the k enclosing
    names in order, one per line, and closes them with
    [} // namespace ni] in the same order; the last segment is the
    interface; a name at global scope gets no namespace text. *)
Theorem namespaces_of_qualified_name (namespaces : list string) (name : string) :
  (forall y, In y (namespaces ++ [name])%list -> has_char ":" y = false) ->
  _pretty_namespaces_begin (Py.join "::" (namespaces ++ [name])%list)
  = Py.join Py.newline (map (fun n => "namespace " ++ n ++ " {") namespaces)
  /\ _pretty_namespaces_end (Py.join "::" (namespaces ++ [name])%list)
     = Py.join Py.newline (map (fun n => "} // namespace " ++ n) namespaces)
  /\ Py.last_item (Py.split "::" (Py.join "::" (namespaces ++ [name])%list)) = name
  /\ (namespaces = [] ->
      _pretty_namespaces_begin name = "" /\ _pretty_namespaces_end name = "").
Proof.
  intros H. unfold _pretty_namespaces_begin, _pretty_namespaces_end.
  rewrite (split_qualified _ _ H). unfold Py.init_items, Py.last_item.
  rewrite removelast_last, last_last, !enumerate_loop_join.
  split; [reflexivity|]. split; [reflexivity|]. split; [reflexivity|].
  intros ->. unfold Py.split.
  assert (E : Py.split_from "::" 0 "" name = [name])
    by (apply (split_join ":" ":" [] name ""), H).
  rewrite E. split; reflexivity.
Qed.

Lemma namespaces_of_qualified_name_witness :
  _pretty_namespaces_begin "a::b::I_Foo"
  = Py.join Py.newline ["namespace a {"; "namespace b {"]
  /\ _pretty_namespaces_end "a::b::I_Foo"
     = Py.join Py.newline ["} // namespace a"; "} // namespace b"].
Proof.
  destruct (namespaces_of_qualified_name ["a"; "b"] "I_Foo") as [Hb [He _]].
  - intros y [<-|[<-|[<-|[]]]]; reflexivity.
  - split; [exact Hb | exact He].
Defined.

Lemma token_is_char (ch c : ascii) :
  (String ch "" =? String c "") = Ascii.eqb ch c.
Proof.
  destruct (Ascii.eqb_spec ch c) as [->|H].
  - apply String.eqb_refl.
  - apply String.eqb_neq. congruence.
Qed.

Lemma interface_loop_no_bracket (s : string) :
  forall (result : string) (ignore : bool),
    has_char "<" result = false ->
    has_char "<" (interface_loop s result ignore) = false.
Proof.
  induction s as [|ch s IH]; intros result ignore H; [exact H|].
  cbn [interface_loop]. apply IH. rewrite (token_is_char ch "<").
  destruct (Ascii.eqb ch "<") eqn:E; cbn [negb]; [exact H|].
  destruct ignore; cbn [negb]; [exact H|].
  rewrite has_char_app, H. simpl. now rewrite E.
Qed.

Lemma interface_loop_ignored (s : string) :
  forall (result : string),
    has_char ">" s = false ->
    interface_loop (s ++ ">") result true = result.
Proof.
  induction s as [|ch s IH]; intros result H; [reflexivity|].
  cbn [has_char] in H. apply orb_false_iff in H. destruct H as [Hch Hs].
  change (String ch s ++ ">") with (String ch (s ++ ">")).
  cbn [interface_loop]. rewrite (token_is_char ch "<"), (token_is_char ch ">"), Hch.
  destruct (Ascii.eqb ch "<"); cbn [negb]; now apply IH.
Qed.

Lemma interface_loop_kept (s rest : string) :
  forall (result : string),
    has_char "<" s = false ->
    interface_loop (s ++ rest) result false
    = interface_loop rest (result ++ s) false.
Proof.
  induction s as [|ch s IH]; intros result H; [now rewrite append_empty_r|].
  cbn [has_char] in H. apply orb_false_iff in H. destruct H as [Hch Hs].
  change (String ch s ++ rest) with (String ch (s ++ rest)).
  cbn [interface_loop]. rewrite (token_is_char ch "<"), Hch. cbn [negb].
  destruct (String ch "" =? ">"); rewrite IH by exact Hs;
    now rewrite append_assoc.
Qed.

(** X12: the interface name never has a [<]: the template arguments of
    the last segment are left out, and a last segment [Name<...>] gives
    [Name]; a last segment without [<] is returned as it is. *)
Theorem get_interface_strips_template (expr : string) :
  Py.contains "<" (_get_interface expr) = false
  /\ (forall name inner,
        Py.last_item (Py.split "::" expr) = name ++ "<" ++ inner ++ ">" ->
        has_char "<" name = false ->
        has_char ">" inner = false ->
        _get_interface expr = name)
  /\ (has_char "<" (Py.last_item (Py.split "::" expr)) = false ->
      _get_interface expr = Py.last_item (Py.split "::" expr)).
Proof.
  unfold _get_interface. repeat split.
  - rewrite contains_char. now apply interface_loop_no_bracket.
  - intros name inner -> Hname Hinner.
    rewrite interface_loop_kept by exact Hname.
    change ("<" ++ inner ++ ">") with (String "<" (inner ++ ">")).
    cbn [interface_loop]. change ("<" =? "<") with true. cbn [negb].
    change ("<" =? ">") with false. cbn iota.
    now rewrite interface_loop_ignored.
  - intros H. rewrite <- (append_empty_r (Py.last_item (Py.split "::" expr))) at 1.
    now rewrite interface_loop_kept.
Qed.

Lemma get_interface_strips_template_witness :
  _get_interface "ns::Obj_Intf<T1, T2>" = "Obj_Intf"
  /\ _get_interface "ns::Obj_Intf" = "Obj_Intf".
Proof.
  split.
  - apply (proj1 (proj2 (get_interface_strips_template "ns::Obj_Intf<T1, T2>"))
             "Obj_Intf" "T1, T2"); reflexivity.
  - apply (proj2 (proj2 (get_interface_strips_template "ns::Obj_Intf"))).
    reflexivity.
Defined.

Lemma template_loop_outside (name rest : string) :
  all_chars class_name_char name = true ->
  forall typename typenames,
    template_loop (name ++ rest) false typename typenames
    = template_loop rest false typename typenames.
Proof.
  induction name as [|ch name IH]; intros H typename typenames; [reflexivity|].
  cbn [all_chars] in H. apply andb_true_iff in H. destruct H as [Hch Hname].
  change (String ch name ++ rest) with (String ch (name ++ rest)).
  cbn [template_loop]. unfold class_name_char in Hch. cbn [Py.mem] in Hch.
  apply negb_true_iff in Hch.
  apply orb_false_iff in Hch. destruct Hch as [H1 Hch].
  apply orb_false_iff in Hch. destruct Hch as [H2 Hch].
  apply orb_false_iff in Hch. destruct Hch as [H3 _].
  rewrite H1, H2, H3. destruct (String ch "" =? " "); now apply IH.
Qed.

Lemma template_loop_parameter (T rest : string) :
  all_chars parameter_char T = true ->
  forall typename typenames,
    template_loop (T ++ rest) true typename typenames
    = template_loop rest true (typename ++ T) typenames.
Proof.
  induction T as [|ch T IH]; intros H typename typenames;
    [now rewrite append_empty_r|].
  cbn [all_chars] in H. apply andb_true_iff in H. destruct H as [Hch HT].
  change (String ch T ++ rest) with (String ch (T ++ rest)).
  cbn [template_loop]. unfold parameter_char in Hch. cbn [Py.mem] in Hch.
  apply negb_true_iff in Hch.
  apply orb_false_iff in Hch. destruct Hch as [H1 Hch].
  apply orb_false_iff in Hch. destruct Hch as [H2 Hch].
  apply orb_false_iff in Hch. destruct Hch as [H3 Hch].
  apply orb_false_iff in Hch. destruct Hch as [H4 _].
  rewrite H1, H2, H3, H4, IH by exact HT. now rewrite append_assoc.
Qed.

Lemma template_loop_parameters (l : list string) :
  forall (T typename : string) (typenames : list string),
    (forall U, In U (T :: l) -> all_chars parameter_char U = true) ->
    template_loop (Py.join ", " (T :: l) ++ ">") true typename typenames
    = (typenames ++ (typename ++ T)%string :: l)%list.
Proof.
  unfold Py.join.
  induction l as [|T2 l IH]; intros T typename typenames H.
  - cbn [String.concat]. rewrite template_loop_parameter by (apply H; now left).
    reflexivity.
  - rewrite concat_two, !append_assoc.
    rewrite template_loop_parameter by (apply H; now left).
    change (", " ++ String.concat ", " (T2 :: l) ++ ">")
      with (String "," (String " " (String.concat ", " (T2 :: l) ++ ">"))).
    cbn [template_loop]. change ("," =? "<") with false. change ("," =? ",") with true.
    change (" " =? "<") with false. change (" " =? ",") with false.
    change (" " =? ">") with false. change (" " =? " ") with true. cbn iota.
    rewrite IH by (intros U HU; apply H; now right).
    now rewrite <- app_assoc.
Qed.

(** X13: for an interface whose last segment is [Name<T1, ..., Tn>]
    (n at least one; no bracket, comma or space inside the names), the
    template text is [template<typename T1, ..., typename Tn>] and a
    newline, the interface is [Name], and the templated class name is
    the class name followed by [<T1, ..., Tn>]. *)
Theorem names_of_templated_interface
  (expr name className : string) (parameters : list string) :
  Py.last_item (Py.split "::" expr) = name ++ "<" ++ Py.join ", " parameters ++ ">" ->
  parameters <> [] ->
  all_chars class_name_char name = true ->
  (forall T, In T parameters -> all_chars parameter_char T = true) ->
  _pretty_template expr
  = "template<" ++ Py.join ", " (map (fun T => "typename " ++ T) parameters)
      ++ ">" ++ Py.newline
  /\ _get_interface expr = name
  /\ _get_templated_class_name className (Py.last_item (Py.split "::" expr))
     = className ++ "<" ++ Py.join ", " parameters ++ ">".
Proof.
  intros Hlast Hne Hname Hparams.
  assert (Hfree : forall c,
             parameter_char c = false -> has_char c ", " = false ->
             has_char c (Py.join ", " parameters) = false).
  { intros c Hc Hsep. apply has_char_join; [exact Hsep|].
    intros T HT. apply (all_chars_has_char parameter_char); [exact Hc|].
    now apply Hparams. }
  destruct parameters as [|T l]; [now elim Hne|].
  split; [|split].
  - unfold _pretty_template. rewrite Hlast.
    rewrite template_loop_outside by exact Hname.
    change ("<" ++ Py.join ", " (T :: l) ++ ">")
      with (String "<" (Py.join ", " (T :: l) ++ ">")).
    cbn [template_loop]. change ("<" =? "<") with true. cbn iota.
    rewrite template_loop_parameters by exact Hparams.
    cbn [app append List.length Nat.ltb Nat.leb].
    now rewrite enumerate_loop_join.
  - unfold _get_interface. rewrite Hlast.
    rewrite interface_loop_kept
      by (apply (all_chars_has_char class_name_char); [reflexivity | exact Hname]).
    change ("<" ++ Py.join ", " (T :: l) ++ ">")
      with (String "<" (Py.join ", " (T :: l) ++ ">")).
    cbn [interface_loop]. change ("<" =? "<") with true. cbn [negb].
    change ("<" =? ">") with false. cbn iota.
    rewrite interface_loop_ignored by (apply Hfree; reflexivity). reflexivity.
  - unfold _get_templated_class_name. rewrite Hlast.
    rewrite contains_after. cbn [negb]. unfold Py.split.
    change (name ++ "<" ++ Py.join ", " (T :: l) ++ ">")
      with (Py.join "<" [name; Py.join ", " (T :: l) ++ ">"]).
    rewrite (split_join "<" "" [Py.join ", " (T :: l) ++ ">"] name "").
    + reflexivity.
    + intros y [<-|[<-|[]]].
      * apply (all_chars_has_char class_name_char); [reflexivity | exact Hname].
      * rewrite has_char_app, Hfree by reflexivity. reflexivity.
Qed.

Lemma names_of_templated_interface_witness :
  _pretty_template "ns::Obj_Intf<T1, T2>"
  = "template<" ++ Py.join ", " ["typename T1"; "typename T2"] ++ ">" ++ Py.newline
  /\ _get_interface "ns::Obj_Intf<T1, T2>" = "Obj_Intf"
  /\ _get_templated_class_name "OBJ_GMOCK"
       (Py.last_item (Py.split "::" "ns::Obj_Intf<T1, T2>"))
     = "OBJ_GMOCK" ++ "<" ++ Py.join ", " ["T1"; "T2"] ++ ">".
Proof.
  apply (names_of_templated_interface "ns::Obj_Intf<T1, T2>" "Obj_Intf"
           "OBJ_GMOCK" ["T1"; "T2"]).
  - reflexivity.
  - discriminate.
  - reflexivity.
  - intros T [<-|[<-|[]]]; reflexivity.
Defined.

End QualifiedNames.

(** ** The dictionary of mock methods and the walk that fills it *)

Section Dictionary.

Import MockGenerator Notions.

Lemma find_setdefault_same (mm : mock_methods_dict) (key file : string)
  (m : MockMethod.t) :
  find_record key (setdefault_append mm key file m)
  = Some (match find_record key mm with
          | Some (f, ms) => (f, (ms ++ [m])%list)
          | None => (file, [m])
          end).
Proof.
  induction mm as [|[k [f ms]] mm IH]; cbn [setdefault_append find_record].
  - now rewrite String.eqb_refl.
  - destruct (k =? key) eqn:E; cbn [find_record]; rewrite E; [reflexivity | exact IH].
Qed.

Lemma find_setdefault_other (mm : mock_methods_dict) (key file : string)
  (m : MockMethod.t) (other : string) :
  (key =? other) = false ->
  find_record other (setdefault_append mm key file m) = find_record other mm.
Proof.
  intros Hne.
  induction mm as [|[k [f ms]] mm IH]; cbn [setdefault_append find_record].
  - now rewrite Hne.
  - destruct (k =? key) eqn:E; cbn [find_record].
    + apply String.eqb_eq in E. subst k. now rewrite Hne.
    + destruct (k =? other); [reflexivity | exact IH].
Qed.

Lemma keys_setdefault (mm : mock_methods_dict) (key file : string)
  (m : MockMethod.t) :
  Spec.keys (setdefault_append mm key file m)
  = if Py.mem key (Spec.keys mm) then Spec.keys mm
    else (Spec.keys mm ++ [key])%list.
Proof.
  unfold Spec.keys.
  induction mm as [|[k [f ms]] mm IH]; cbn [setdefault_append map fst Py.mem];
    [reflexivity|].
  rewrite (String.eqb_sym key k).
  destruct (k =? key); cbn [map fst orb]; [reflexivity|].
  rewrite IH. now destruct (Py.mem key (map fst mm)).
Qed.

(** X14: [mock_methods.setdefault(key, [file]).append(m)] as insert and
    lookup: under [key] the record is the old one with [m] appended, its
    file unchanged, or the new record [(file, [m])]; the records of the
    other keys are untouched; the keys keep their order and a new key
    goes to the end. *)
Theorem setdefault_append_lookup (mm : mock_methods_dict) (key file : string)
  (m : MockMethod.t) :
  find_record key (setdefault_append mm key file m)
  = Some (match find_record key mm with
          | Some (f, ms) => (f, (ms ++ [m])%list)
          | None => (file, [m])
          end)
  /\ (forall other,
        (key =? other) = false ->
        find_record other (setdefault_append mm key file m) = find_record other mm)
  /\ Spec.keys (setdefault_append mm key file m)
     = (if Py.mem key (Spec.keys mm) then Spec.keys mm
        else (Spec.keys mm ++ [key])%list).
Proof.
  split; [apply find_setdefault_same|].
  split; [intros other; apply find_setdefault_other | apply keys_setdefault].
Qed.

Lemma mem_true_In (x : string) (l : list string) : Py.mem x l = true -> In x l.
Proof.
  induction l as [|y l IH]; simpl; [discriminate|].
  destruct (String.eqb_spec x y) as [->|_]; [now left | right; now apply IH].
Qed.

Lemma In_setdefault (mm : mock_methods_dict) (key file : string)
  (m : MockMethod.t) (k f : string) (ms : list MockMethod.t) :
  In (k, (f, ms)) (setdefault_append mm key file m) ->
  In (k, (f, ms)) mm
  \/ (k = key
      /\ (ms = [m]
          \/ exists ms0, In (key, (f, ms0)) mm /\ ms = (ms0 ++ [m])%list)).
Proof.
  induction mm as [|[k0 [f0 ms0]] mm IH]; cbn [setdefault_append].
  - intros [H|[]]. injection H as <- <- <-. right. split; [reflexivity | now left].
  - destruct (String.eqb_spec k0 key) as [->|_].
    + intros [H|H].
      * injection H as <- <- <-. right. split; [reflexivity|].
        right. exists ms0. split; [now left | reflexivity].
      * left. now right.
    + intros [H|H].
      * left. now left.
      * destruct (IH H) as [Hin|[-> [->|[ms1 [Hin ->]]]]].
        -- left. now right.
        -- right. split; [reflexivity | now left].
        -- right. split; [reflexivity|]. right. exists ms1.
           split; [now right | reflexivity].
Qed.

(** What the walk keeps: any relation between dictionaries that holds
    from a dictionary to itself, composes, and holds for the insertion of
    a mock method as the walk makes them. *)
Section Kept.

Variable R : mock_methods_dict -> mock_methods_dict -> Prop.
Hypothesis R_refl : forall mm, R mm mm.
Hypothesis R_trans : forall a b c, R a b -> R b c -> R a c.
Hypothesis R_step :
  forall mm key file m, made_under key m -> R mm (setdefault_append mm key file m).

Lemma walk_keeps (restriction : string) (node : Cursor) :
  forall mm expr mm',
    _get_mock_methods restriction node mm expr = Ok mm' -> R mm mm'.
Proof.
  induction node as [kind name spelling tokens is_const file children IHc]
    using Cursor_tree_ind.
  assert (Hall : forall e mm mm',
             visit_all restriction children mm e = Ok mm' -> R mm mm').
  { intros e. induction IHc as [|c cs Hc _ IHcs]; intros mm mm' H.
    - injection H as <-. apply R_refl.
    - cbn [visit_all] in H. apply bind_ok in H. destruct H as [mm1 [H1 H2]].
      apply (R_trans _ mm1); [apply (Hc _ _ _ H1) | apply (IHcs _ _ H2)]. }
  intros mm expr mm' H. rewrite get_mock_methods_node in H.
  assert (Hcontainer :
           (if Py.startswith (extend expr name) restriction
            then visit_all restriction children mm (extend expr name)
            else Ok mm) = Ok mm' -> R mm mm').
  { destruct (Py.startswith (extend expr name) restriction); intros H'.
    - apply (Hall _ _ _ H').
    - injection H' as <-. apply R_refl. }
  destruct kind; auto.
  - apply bind_ok in H. destruct H as [[n a] [Hargs H]]. injection H as <-.
    apply R_step. split; [reflexivity|].
    apply (num_args_zero_iff_empty _ _ _ Hargs).
  - apply (Hall _ _ _ H).
Qed.

End Kept.

Lemma NoDup_snoc (l : list string) (x : string) :
  NoDup l -> ~ In x l -> NoDup (l ++ [x])%list.
Proof.
  induction l as [|y l IH]; intros Hl Hx; simpl.
  - constructor; [tauto | constructor].
  - inversion Hl as [|? ? Hy Hl']; subst. constructor.
    + rewrite in_app_iff. simpl. intros [H|[H|[]]]; [tauto|].
      apply Hx. now left.
    + apply IH; [exact Hl'|]. intros H. apply Hx. now right.
Qed.

(** X15: the walk only adds to the dictionary.  The keys it had stay
    first and in their order, every record it had keeps its file and its
    mock methods as the beginning of the new list, and keys that were
    distinct stay distinct. *)
Theorem walk_extends_dictionary (restriction : string) (node : Cursor)
  (mm : mock_methods_dict) (expr : string) (mm' : mock_methods_dict) :
  _get_mock_methods restriction node mm expr = Ok mm' ->
  (exists added, Spec.keys mm' = (Spec.keys mm ++ added)%list)
  /\ (forall key file ms,
        find_record key mm = Some (file, ms) ->
        exists ms', find_record key mm' = Some (file, (ms ++ ms')%list))
  /\ (NoDup (Spec.keys mm) -> NoDup (Spec.keys mm')).
Proof.
  apply (walk_keeps
           (fun a b =>
              (exists added, Spec.keys b = (Spec.keys a ++ added)%list)
              /\ (forall key file ms,
                    find_record key a = Some (file, ms) ->
                    exists ms', find_record key b = Some (file, (ms ++ ms')%list))
              /\ (NoDup (Spec.keys a) -> NoDup (Spec.keys b)))).
  - intros a. split; [exists []; now rewrite app_nil_r|].
    split; [|tauto]. intros key file ms H. exists []. now rewrite app_nil_r.
  - intros a b c [[l1 H1] [F1 N1]] [[l2 H2] [F2 N2]].
    split; [exists (l1 ++ l2)%list; now rewrite H2, H1, app_assoc|].
    split; [|tauto]. intros key file ms H.
    destruct (F1 _ _ _ H) as [ms1 H']. destruct (F2 _ _ _ H') as [ms2 H''].
    exists (ms1 ++ ms2)%list. now rewrite app_assoc.
  - intros a key file m _. rewrite keys_setdefault. split; [|split].
    + destruct (Py.mem key (Spec.keys a));
        [exists []; now rewrite app_nil_r | now exists [key]].
    + intros k f ms H. destruct (key =? k) eqn:E.
      * apply String.eqb_eq in E. subst k. rewrite find_setdefault_same, H.
        now exists [m].
      * rewrite find_setdefault_other by exact E. exists [].
        now rewrite app_nil_r.
    + intros Hnd. destruct (Py.mem key (Spec.keys a)) eqn:E; [exact Hnd|].
      apply NoDup_snoc; [exact Hnd|]. intros Hin. apply mem_In in Hin. congruence.
Qed.

Lemma walk_extends_dictionary_witness :
  _get_mock_methods "" Sample.two_interfaces
    [("a::X_One", ("x.h", [Sample.bar_method]))] ""
  = Ok [("a::X_One", ("x.h", [Sample.bar_method; Sample.bar_method]));
        ("b::Y_Two", ("include/foo.h", [Sample.bar_method]))]
  /\ (exists added,
        Spec.keys [("a::X_One", ("x.h", [Sample.bar_method; Sample.bar_method]));
                   ("b::Y_Two", ("include/foo.h", [Sample.bar_method]))]
        = (Spec.keys [("a::X_One", ("x.h", [Sample.bar_method]))] ++ added)%list).
Proof.
  split; [reflexivity|].
  apply (walk_extends_dictionary "" Sample.two_interfaces
           [("a::X_One", ("x.h", [Sample.bar_method]))] ""
           [("a::X_One", ("x.h", [Sample.bar_method; Sample.bar_method]));
            ("b::Y_Two", ("include/foo.h", [Sample.bar_method]))]).
  reflexivity.
Defined.

(** X16: every mock method the walk stores is marked as template exactly
    when the qualified name it is stored under has a [<], and has
    argument count zero exactly when its argument text is empty. *)
Theorem walk_makes_methods_under_key (restriction : string) (node : Cursor)
  (mm : mock_methods_dict) (expr : string) (mm' : mock_methods_dict) :
  _get_mock_methods restriction node mm expr = Ok mm' ->
  all_made_under mm -> all_made_under mm'.
Proof.
  apply (walk_keeps (fun a b => all_made_under a -> all_made_under b)).
  - tauto.
  - tauto.
  - intros a key file m Hm Ha k f ms m0 Hin Hm0.
    destruct (In_setdefault _ _ _ _ _ _ _ Hin) as [Hold|[-> [->|[ms0 [Hold ->]]]]].
    + apply (Ha _ _ _ _ Hold Hm0).
    + destruct Hm0 as [<-|[]]. exact Hm.
    + apply in_app_iff in Hm0. destruct Hm0 as [Hm0|[<-|[]]]; [|exact Hm].
      apply (Ha _ _ _ _ Hold Hm0).
Qed.

Lemma walk_makes_methods_under_key_witness :
  all_made_under Sample.two_collected.
Proof.
  apply (walk_makes_methods_under_key "" Sample.two_interfaces [] ""
           Sample.two_collected).
  - reflexivity.
  - intros key file ms m [].
Defined.

Lemma total_cons (k f : string) (ms : list MockMethod.t) (mm : mock_methods_dict) :
  total_methods ((k, (f, ms)) :: mm) = List.length ms + total_methods mm.
Proof. reflexivity. Qed.

Lemma total_setdefault (mm : mock_methods_dict) (key file : string)
  (m : MockMethod.t) :
  total_methods (setdefault_append mm key file m) = S (total_methods mm).
Proof.
  induction mm as [|[k [f ms]] mm IH]; cbn [setdefault_append]; [reflexivity|].
  destruct (k =? key); rewrite !total_cons.
  - rewrite length_app. simpl. lia.
  - rewrite IH. lia.
Qed.

(** X17: the walk stores at most one mock method per method node of the
    tree, and with the empty restriction exactly one per method node:
    nothing is pruned and nothing is looked at below a method node. *)
Theorem walk_counts_method_nodes (restriction : string) (node : Cursor) :
  forall (mm : mock_methods_dict) (expr : string) (mm' : mock_methods_dict),
    _get_mock_methods restriction node mm expr = Ok mm' ->
    total_methods mm' <= total_methods mm + count_methods node
    /\ (restriction = "" ->
        total_methods mm' = total_methods mm + count_methods node).
Proof.
  induction node as [kind name spelling tokens is_const file children IHc]
    using Cursor_tree_ind.
  assert (Hall : forall e mm mm',
             visit_all restriction children mm e = Ok mm' ->
             total_methods mm'
             <= total_methods mm + list_sum (map count_methods children)
             /\ (restriction = "" ->
                 total_methods mm'
                 = total_methods mm + list_sum (map count_methods children))).
  { intros e. induction IHc as [|c cs Hc _ IHcs]; intros mm mm' H.
    - injection H as <-. simpl. lia.
    - cbn [visit_all] in H. apply bind_ok in H. destruct H as [mm1 [H1 H2]].
      destruct (Hc _ _ _ H1) as [L1 E1]. destruct (IHcs _ _ H2) as [L2 E2].
      change (list_sum (map count_methods (c :: cs)))
        with (count_methods c + list_sum (map count_methods cs)).
      split; [lia|].
      intros Hr. rewrite (E2 Hr), (E1 Hr). lia. }
  intros mm expr mm' H. rewrite get_mock_methods_node in H.
  assert (Hcontainer :
           (if Py.startswith (extend expr name) restriction
            then visit_all restriction children mm (extend expr name)
            else Ok mm) = Ok mm' ->
           total_methods mm'
           <= total_methods mm + list_sum (map count_methods children)
           /\ (restriction = "" ->
               total_methods mm'
               = total_methods mm + list_sum (map count_methods children))).
  { destruct (Py.startswith (extend expr name) restriction) eqn:E; intros H'.
    - apply (Hall _ _ _ H').
    - injection H' as <-. split; [lia|]. intros ->.
      unfold Py.startswith in E. now rewrite prefix_empty in E. }
  destruct kind; cbn [count_methods]; auto.
  - apply bind_ok in H. destruct H as [[n a] [_ H]]. injection H as <-.
    rewrite total_setdefault. split; [lia | intros _; lia].
  - apply (Hall _ _ _ H).
Qed.

Lemma walk_counts_method_nodes_witness :
  count_methods Sample.two_interfaces = 2
  /\ total_methods Sample.two_collected = 0 + 2.
Proof.
  split; [reflexivity|].
  apply (proj2 (walk_counts_method_nodes "" Sample.two_interfaces [] ""
                  Sample.two_collected eq_refl)).
  reflexivity.
Defined.

End Dictionary.

(** ** MockGenerator.generate_data: the replacement mapping as a whole *)

Section Mapping.

Import MockGenerator Notions.

(** X18: the fields of a replacement mapping fit together.  The class
    name is the interface name followed by [_GMOCK], the guard is the
    class name followed by [_H_], the two file names share their stem,
    the interface name has no lower-case letter, and the file, the mock
    methods and the template interface are those of the first record of
    the dictionary. *)
Theorem generate_data_mapping (self : MockGenerator.t) (r : replacements) :
  generate_data self = Ok r ->
  exists key source methods rest,
    collect self = Ok ((key, (source, methods)) :: rest)
    /\ class_name r = interface r ++ "_GMOCK"
    /\ guard r = class_name r ++ "_H_"
    /\ (exists stem,
          mock_file_hpp r = stem ++ "-gmock.h"
          /\ mock_file_cpp r = stem ++ "-gmock.cpp")
    /\ all_chars not_lower (interface r) = true
    /\ generated_dir r = path self
    /\ file r = Py.basename source
    /\ mock_methods r = _pretty_mock_methods methods
    /\ template_interface r = Py.last_item (Py.split "::" key).
Proof.
  unfold generate_data. intros H. apply bind_ok in H.
  destruct H as [collected [Hc H]].
  destruct collected as [|[key [source methods]] rest]; [discriminate H|].
  exists key, source, methods, rest. split; [exact Hc|].
  unfold build_replacements, StringTransform.header_guard_name,
    StringTransform.gmock_class_name, StringTransform.gmock_h_file_name,
    StringTransform.gmock_cpp_file_name, StringTransform._snake_case,
    StringTransform._kebab_case in H.
  destruct (StringTransform._string_parts (_get_interface key)) as [parts|e];
    cbn [bind] in H; [|discriminate H].
  injection H as <-.
  cbn [class_name interface guard mock_file_hpp mock_file_cpp generated_dir
         file mock_methods template_interface fst snd].
  repeat split.
  - exists (Py.join StringTransform.KEBAB parts). split; reflexivity.
  - apply upper_not_lower.
Qed.

Lemma generate_data_mapping_witness :
  exists r,
    generate_data (mk "" "out" (Sample.unit_of "I_Foo")) = Ok r
    /\ class_name r = interface r ++ "_GMOCK"
    /\ guard r = class_name r ++ "_H_".
Proof.
  eexists. split; [reflexivity|].
  destruct (generate_data_mapping (mk "" "out" (Sample.unit_of "I_Foo")) _ eq_refl)
    as [key [source [methods [rest [_ [Hclass [Hguard _]]]]]]].
  split; [exact Hclass | exact Hguard].
Defined.

(** X19: once the walk has collected a first interface, [generate_data]
    returns a mapping exactly when the interface name (the last segment
    without its template arguments) has one of the three delimiters, and
    raises a [ValueError] otherwise: no other exception comes from the
    assembly. *)
Theorem generate_data_succeeds_iff (self : MockGenerator.t) (key : string)
  (record : interface_record) (rest : mock_methods_dict) :
  collect self = Ok ((key, record) :: rest) ->
  is_ok (generate_data self) = Spec.has_delimiter (_get_interface key)
  /\ is_value_error (generate_data self)
     = negb (Spec.has_delimiter (_get_interface key)).
Proof.
  intros Hc. unfold generate_data. rewrite Hc. cbn [bind].
  pose proof (string_parts_value_error (_get_interface key)) as Hv.
  unfold build_replacements, StringTransform.header_guard_name,
    StringTransform.gmock_class_name, StringTransform.gmock_h_file_name,
    StringTransform.gmock_cpp_file_name, StringTransform._snake_case,
    StringTransform._kebab_case.
  unfold StringTransform._string_parts in *.
  destruct (List.length
              (StringTransform.split_on_first_delimiter StringTransform.delimiters
                 (_get_interface key)) =? 0)%nat;
    cbn [bind is_ok is_value_error] in *;
    destruct (Spec.has_delimiter (_get_interface key));
    try discriminate Hv; split; reflexivity.
Qed.

Lemma generate_data_succeeds_iff_witness :
  is_ok (generate_data (mk "" "." (Sample.unit_of "IFoo"))) = false
  /\ is_ok (generate_data (mk "" "." (Sample.unit_of "I_Foo"))) = true.
Proof.
  split.
  - apply (proj1 (generate_data_succeeds_iff (mk "" "." (Sample.unit_of "IFoo"))
                    "ns::IFoo" ("include/foo.h", [Sample.bar_method]) []
                    eq_refl)).
  - apply (proj1 (generate_data_succeeds_iff (mk "" "." (Sample.unit_of "I_Foo"))
                    "ns::I_Foo" ("include/foo.h", [Sample.bar_method]) []
                    eq_refl)).
Defined.

End Mapping.
